(** * redeemer: the delegation policy of [redeemer/delegator.py]

    A shallow embedding of the [Delegator] class and of the helper functions
    of [delegator.py], with the properties of its sizing policy, of its
    account pager and of its page pipeline.

    Modelling conventions.
    - A [decimal.Decimal] is an exact rational ([Q]); the special values
      (NaN, infinities) and the rounding of the arithmetic context to 28
      significant digits are outside the model.  Python's [int] is [Z].
    - An exception is a [Raise] result; [None] is Rocq's [None].
    - What the Python runtime and the standard library do to text
      (the [Decimal] and [int] constructors, [datetime.strptime],
      [datetime.today], the [%.6f] conversion) is a parameter of the
      development (section [Policy]); module [Ref] gives executable
      instances for the plain numerals and timestamps the chain emits.
    - The chain client ([Steem]) and the transaction builder are records of
      functions; the calls made to them are recorded in a trace of events. *)

From Stdlib Require Import ZArith QArith Qabs Lqa Lia List String Ascii Bool.
From Stdlib Require Import DecimalString.
From stdpp Require Import base decidable gmap strings.

Import ListNotations.
Local Open Scope string_scope.
Local Open Scope Z_scope.
Local Open Scope Q_scope.

(** ** Results of fallible code *)

Inductive exn : Type :=
| KeyError (key : string)
| InvalidOperation            (* decimal.Decimal(text) on a non-numeral *)
| ValueError                  (* int(text), strptime(text, fmt) *)
| ZeroDivisionError
| ExternalError (what : string). (* raised by a collaborator *)

Inductive result (A : Type) : Type :=
| Ok (a : A)
| Raise (e : exn).
Arguments Ok {A} a.
Arguments Raise {A} e.

#[global] Instance result_ret : MRet result := fun A a => Ok a.
#[global] Instance result_bind : MBind result := fun A B k r =>
  match r with
  | Ok a => k a
  | Raise e => Raise e
  end.

Definition of_option {A} (e : exn) (o : option A) : result A :=
  match o with
  | Some a => Ok a
  | None => Raise e
  end.

(** ** Comparisons on decimals, as booleans *)

Definition Qlt_bool (x y : Q) : bool := negb (Qle_bool y x).

(** Python's [max(a, b)] keeps [a] unless [b] is strictly greater. *)
Definition py_max (a b : Q) : Q := if Qlt_bool a b then b else a.

(** ** Data model *)

(** A JSON number or text, as the chain's account objects carry their
    withdrawal counters; [int(...)] accepts both. *)
Inductive pyval : Type :=
| PyInt (z : Z)
| PyStr (s : string).

(** An account object of [get_accounts], a Python dict.  The key
    ['vesting_shares_from_delegator'] is not sent by the chain:
    [get_delegated_accounts] adds it, so the field is optional. *)
Record Account : Type := {
  name : string;
  vesting_shares : string;
  vesting_shares_from_delegator : option string;
  last_bandwidth_update : string;
  created : string;
  last_post : string;
  last_vote_time : string;
  vesting_withdraw_rate : string;
  withdrawn : pyval;
  to_withdraw : pyval
}.

(** [acct['vesting_shares_from_delegator'] = v] *)
Definition set_from_delegator (acct : Account) (v : string) : Account :=
  {| name := name acct;
     vesting_shares := vesting_shares acct;
     vesting_shares_from_delegator := Some v;
     last_bandwidth_update := last_bandwidth_update acct;
     created := created acct;
     last_post := last_post acct;
     last_vote_time := last_vote_time acct;
     vesting_withdraw_rate := vesting_withdraw_rate acct;
     withdrawn := withdrawn acct;
     to_withdraw := to_withdraw acct |}.

(** The dict returned by [vests_to_delegate]; its key ['name'] is
    [delta_name], its key ['shares'] is [delta_shares]. *)
Record delta : Type := {
  delta_name : string;
  delta_shares : string;
  delta_vests : Q;
  new_vests : string;
  old_vests : string
}.

(** One entry of [get_vesting_delegations]. *)
Record delegation : Type := {
  delegatee : string;
  delegation_vesting_shares : string
}.

(** A pagination cursor: [None], [''] or a delegatee name. *)
Definition cursor : Type := option string.

(** The fields of the two property objects that [__init__] reads. *)
Record global_props : Type := {
  total_vesting_fund_steem : string;
  total_vesting_shares : string
}.

Record chain_props : Type := {
  account_creation_fee : string
}.

(** The chain client, [self.steem]. *)
Record Steem : Type := {
  get_dynamic_global_properties : result global_props;
  get_chain_properties : result chain_props;
  get_vesting_delegations : string -> cursor -> Z -> result (list delegation);
  get_accounts : list string -> result (list Account)
}.

(** The attributes [__init__] sets on [self]; of the logger, its method
    [info]. *)
Record Delegator : Type := {
  steem : Steem;
  deplorables : gset string;
  limit : Z;
  logger : string -> result unit;
  STEEM_PER_VEST : Q;
  TARGET_VESTS : Q;
  MIN_VESTS_DELTA : Q;
  MIN_VESTS : Q
}.

(** [Delegator.TARGET_SP] *)
Definition TARGET_SP : Q := 15.

(** The float literal [0.000001] of line 97: the binary64 number nearest
    to 10^-6, which lies just below it.  Python compares a [Decimal] with a
    float by exact value. *)
Definition float_0_000001 : Q := 4722366482869645 # (2 ^ 72).

(** [s.split(' ')[0]]: the text before the first space. *)
Fixpoint split_space_0 (s : string) : string :=
  match s with
  | EmptyString => EmptyString
  | String c rest =>
      if Ascii.eqb c " "%char then EmptyString else String c (split_space_0 rest)
  end.

(** Python's [max] of four texts: the first of the greatest ones. *)
Definition str_max2 (a b : string) : string := if String.ltb a b then b else a.

Definition str_max4 (a b c d : string) : string :=
  str_max2 (str_max2 (str_max2 a b) c) d.

(** Microseconds in a day, the unit of [timedelta.days]. *)
Definition DAY_US : Z := 86400000000.

(** ** The Python runtime

    The conversions of the standard library that the module calls, and the
    clock.  Times are microseconds since an epoch. *)
Class Runtime : Type := {
  (** [decimal.Decimal(text)]; [None] when it raises *)
  Decimal : string -> option Q;
  (** [int(text)]; [None] when it raises *)
  int_of_str : string -> option Z;
  (** [datetime.strptime(text, '%Y-%m-%dT%H:%M:%S')]; [None] when it raises *)
  strptime : string -> option Z;
  (** [datetime.today()] *)
  today : Z;
  (** ["%.6f" % x] *)
  format_6f : Q -> string
}.

Section Policy.

Context {RT : Runtime}.

(** [amount(steem_amount)], lines 10-12 *)
Definition amount (steem_amount : string) : result Q :=
  of_option InvalidOperation (Decimal (split_space_0 steem_amount)).

(** [int(v)] *)
Definition py_int (v : pyval) : result Z :=
  match v with
  | PyInt z => Ok z
  | PyStr s => of_option ValueError (int_of_str s)
  end.

(** [days_since(date)], lines 22-24: [timedelta.days] is the floor of the
    interval in days. *)
Definition days_since (date : string) : result Z :=
  t ← of_option ValueError (strptime date);
  Ok ((today - t) / DAY_US)%Z.

(** [inactive_days(account)], lines 14-20 *)
Definition inactive_days (acct : Account) : result Z :=
  let last_action_date :=
    str_max4 (last_bandwidth_update acct) (created acct)
             (last_post acct) (last_vote_time acct) in
  days_since last_action_date.

(** Lines 87-95: the target before the guard and the rounding. *)
Definition candidate_vests (self : Delegator) (acct : Account)
    (account_vests : Q) : result Q :=
  if bool_decide (name acct ∈ deplorables self) then Ok 0
  else if Qle_bool (TARGET_VESTS self) account_vests then Ok 0
  else
    days ← inactive_days acct;
    if (90 <? days)%Z then
      let _inactive_target := TARGET_VESTS self / 3 - account_vests in
      Ok (py_max (MIN_VESTS self) _inactive_target)
    else Ok (TARGET_VESTS self - account_vests).

(** Lines 97-100, with the short circuit of [or]. *)
Definition skip_increase (acct : Account) (account_vests : Q) : result bool :=
  rate ← amount (vesting_withdraw_rate acct);
  if Qlt_bool float_0_000001 rate then Ok true
  else
    w ← py_int (withdrawn acct);
    if (0 <? w)%Z then Ok true
    else
      tw ← py_int (to_withdraw acct);
      if (0 <? tw)%Z then Ok true
      else Ok (Qlt_bool account_vests 200).

(** Lines 106-116: rounding up to the minimum, else the raise of a
    delegation that is too small to be reset. *)
Definition round_or_raise (self : Delegator) (new_delegated_vests old_delegated_vests : Q) : Q :=
  if Qlt_bool 0 new_delegated_vests && Qlt_bool new_delegated_vests (MIN_VESTS self)
  then MIN_VESTS self
  else if Qeq_bool new_delegated_vests 0
          && Qlt_bool old_delegated_vests (MIN_VESTS_DELTA self)
  then py_max (MIN_VESTS self) (old_delegated_vests + MIN_VESTS_DELTA self)
  else new_delegated_vests.

(** [Delegator.vests_to_delegate], lines 82-126 *)
Definition vests_to_delegate (self : Delegator) (acct : Account)
    : result (option delta) :=
  account_vests ← amount (vesting_shares acct);
  old_text ← of_option (KeyError "vesting_shares_from_delegator")
                       (vesting_shares_from_delegator acct);
  old_delegated_vests ← amount old_text;
  new_delegated_vests ← candidate_vests self acct account_vests;
  skip ← skip_increase acct account_vests;
  if Qlt_bool old_delegated_vests new_delegated_vests && skip then Ok None
  else
    let new_delegated_vests :=
      round_or_raise self new_delegated_vests old_delegated_vests in
    let delta := new_delegated_vests - old_delegated_vests in
    if Qlt_bool (Qabs delta) (MIN_VESTS_DELTA self) then Ok None
    else Ok (Some {| delta_name := name acct;
                     delta_shares := vesting_shares acct;
                     delta_vests := delta;
                     new_vests := format_6f new_delegated_vests ++ " VESTS";
                     old_vests := old_text |}).

(** [Delegator.get_delegation_deltas], lines 128-130: the first exception
    of the list comprehension ends it. *)
Fixpoint get_delegation_deltas (self : Delegator) (accounts : list Account)
    : result (list delta) :=
  match accounts with
  | [] => Ok []
  | acct :: rest =>
      item ← vests_to_delegate self acct;
      items ← get_delegation_deltas self rest;
      Ok (match item with Some d => d :: items | None => items end)
  end.

(** A result that is not an exception. *)
Definition is_Ok {A} (r : result A) : Prop := exists a, r = Ok a.


End Policy.

(** ** Calls to the collaborators *)

(** [operations.DelegateVestingShares(delegator=, vesting_shares=, delegatee=)] *)
Record operation : Type := DelegateVestingShares {
  op_delegator : string;
  op_vesting_shares : string;
  op_delegatee : string
}.

(** A call made to the chain client, to the transaction builder, to the
    logger or to [time.sleep], in the order the calls are made. *)
Inductive event : Type :=
| GetVestingDelegations (account : string) (last_idx : cursor) (limit : Z)
| GetAccounts (names : list string)
| NewTransactionBuilder (expiration : Z)
| AppendOps (ops : list operation)
| AppendWif (wif : string)
| Sign
| Broadcast
| LogInfo (result : string)
| Sleep (pause : Q).

(** The methods of [TransactionBuilder] that [delegate] calls, each a
    function of what was appended so far. *)
Record TransactionBuilder : Type := {
  appendOps : list operation -> result unit;
  appendWif : list operation -> list string -> string -> result unit;
  sign : list operation -> list string -> result unit;
  broadcast : list operation -> list string -> result string
}.

(** A computation that makes calls: the trace of its calls, and its
    result or the exception that ended it. *)
Record M (A : Type) : Type := mkM { trace : list event; outcome : result A }.
Arguments mkM {A} trace outcome.
Arguments trace {A} m.
Arguments outcome {A} m.

#[global] Instance M_ret : MRet M := fun A a => mkM [] (Ok a).
#[global] Instance M_bind : MBind M := fun A B k m =>
  match outcome m with
  | Ok a => mkM (trace m ++ trace (k a)) (outcome (k a))
  | Raise e => mkM (trace m) (Raise e)
  end.

(** A call to a collaborator, and a step that makes none. *)
Definition call {A} (ev : event) (r : result A) : M A := mkM [ev] r.
Definition pure_step {A} (r : result A) : M A := mkM [] r.

(** A Python dict with text keys, in insertion order. *)
Definition dict : Type := list (string * string).

(** [d[k] = v]: a key that is present keeps its place. *)
Fixpoint dict_set (d : dict) (k v : string) : dict :=
  match d with
  | [] => [(k, v)]
  | (k', v') :: rest =>
      if String.eqb k' k then (k', v) :: rest else (k', v') :: dict_set rest k v
  end.

(** [d[k]] *)
Fixpoint dict_get (d : dict) (k : string) : result string :=
  match d with
  | [] => Raise (KeyError k)
  | (k', v') :: rest => if String.eqb k' k then Ok v' else dict_get rest k
  end.

(** [list(d.keys())] *)
Definition dict_keys (d : dict) : list string := map fst d.

(** Truth value of a cursor: [None] and [''] are false. *)
Definition cursor_truthy (c : cursor) : bool :=
  match c with
  | None => false
  | Some s => negb (String.eqb s "")
  end.

(** [results[0]['delegatee'] == last_idx] *)
Definition cursor_eqb (s : string) (c : cursor) : bool :=
  match c with
  | None => false
  | Some s' => String.eqb s s'
  end.

(** Lines 67-70: the list after the conditional [results.pop(0)]. *)
Definition pop_cursor (last_idx : cursor) (results : list delegation)
    : list delegation :=
  match results with
  | r :: rest =>
      if cursor_truthy last_idx && cursor_eqb (delegatee r) last_idx
      then rest else results
  | [] => results
  end.

(** Line 75: the dict comprehension. *)
Definition delegations_of (results : list delegation) : dict :=
  fold_left (fun d r => dict_set d (delegatee r) (delegation_vesting_shares r))
            results [].

(** Lines 77-78: the loop that sets the delegated amount on each account. *)
Fixpoint attach_delegations (delegations : dict) (accounts : list Account)
    : result (list Account) :=
  match accounts with
  | [] => Ok []
  | acct :: rest =>
      v ← dict_get delegations (name acct);
      rest' ← attach_delegations delegations rest;
      Ok (set_from_delegator acct v :: rest')
  end.

(** [Delegator.get_delegated_accounts], lines 63-80 *)
Definition get_delegated_accounts (self : Delegator) (account : string)
    (last_idx : cursor) : M (list Account * cursor) :=
  results ← call (GetVestingDelegations account last_idx (limit self))
                 (get_vesting_delegations (steem self) account last_idx (limit self));
  let results := pop_cursor last_idx results in
  match results with
  | [] => mret ([], None)
  | r0 :: _ =>
      let delegations := delegations_of results in
      accounts ← call (GetAccounts (dict_keys delegations))
                      (get_accounts (steem self) (dict_keys delegations));
      accounts ← pure_step (attach_delegations delegations accounts);
      mret (accounts, Some (delegatee (List.last results r0)))
  end.

Section Pipeline.

Context {RT : Runtime}.
Variable TB : TransactionBuilder.

(** [x / y] on decimals: a zero divisor raises. *)
Definition decimal_div (x y : Q) : result Q :=
  if Qeq_bool y 0
  then Raise (if Qeq_bool x 0 then InvalidOperation else ZeroDivisionError)
  else Ok (x / y).

(** [Delegator.__init__], lines 30-61, for a chain client that is given;
    [deplorables=None] is the empty set. *)
Definition Delegator_init (steem : Steem) (limit : Z)
    (logger : string -> result unit) (deplorables : option (gset string))
    : result Delegator :=
  let deplorables := match deplorables with Some s => s | None => ∅ end in
  global_props ← get_dynamic_global_properties steem;
  vesting_steem ← amount (total_vesting_fund_steem global_props);
  vesting_shares ← amount (total_vesting_shares global_props);
  chain_props ← get_chain_properties steem;
  account_creation_fee ← amount (account_creation_fee chain_props);
  STEEM_PER_VEST ← decimal_div vesting_steem vesting_shares;
  TARGET_VESTS ← decimal_div TARGET_SP STEEM_PER_VEST;
  MIN_VESTS_DELTA ← decimal_div account_creation_fee STEEM_PER_VEST;
  Ok {| steem := steem;
        deplorables := deplorables;
        limit := limit;
        logger := logger;
        STEEM_PER_VEST := STEEM_PER_VEST;
        TARGET_VESTS := TARGET_VESTS;
        MIN_VESTS_DELTA := MIN_VESTS_DELTA;
        MIN_VESTS := MIN_VESTS_DELTA * 10 |}.

(** Line 159: [[tx.appendWif(wif) for wif in wifs]]; [added] are the keys
    appended before. *)
Fixpoint append_wifs (ops : list operation) (added wifs : list string) : M unit :=
  match wifs with
  | [] => mret tt
  | wif :: rest =>
      _ ← call (AppendWif wif) (appendWif TB ops added wif);
      append_wifs ops (added ++ [wif]) rest
  end.

(** [Delegator.delegate], lines 132-168 *)
Definition delegate (self : Delegator) (delegator : string) (last_idx : cursor)
    (expiration : Z) (dry_run : bool) (wifs : list string)
    : M (list delta * cursor) :=
  '(accounts, last_idx) ← get_delegated_accounts self delegator last_idx;
  match accounts with
  | [] => mret ([], last_idx)
  | _ :: _ =>
      deltas ← pure_step (get_delegation_deltas self accounts);
      match deltas with
      | [] => mret ([], last_idx)
      | _ :: _ =>
          let delegation_ops :=
            map (fun delta => DelegateVestingShares
                                delegator (new_vests delta) (delta_name delta))
                deltas in
          _ ← call (NewTransactionBuilder expiration) (Ok tt);
          _ ← call (AppendOps delegation_ops) (appendOps TB delegation_ops);
          _ ← append_wifs delegation_ops [] wifs;
          _ ← match wifs with
              | [] => mret tt
              | _ :: _ => call Sign (sign TB delegation_ops wifs)
              end;
          _ ← (if negb dry_run then
                 result ← call Broadcast (broadcast TB delegation_ops wifs);
                 _ ← call (LogInfo result) (logger self result);
                 let pause := 3 * inject_Z (Z.of_nat (length deltas)) / 100 in
                 call (Sleep pause) (Ok tt)
               else mret tt);
          mret (deltas, last_idx)
      end
  end.

End Pipeline.

(** ** An executable runtime

    Instances of the conversions for the texts the chain emits: plain
    fixed-point numerals ([[+-]digits[.digits]]), plain integers, and
    timestamps written [YYYY-MM-DDTHH:MM:SS] with all digits present.
    The rendering rounds the exact value half to even. *)
Module Ref.

(** A non-empty run of digits, read as a number. *)
Definition digits (s : string) : option Z :=
  match s with
  | EmptyString => None
  | _ => u ← DecimalString.NilEmpty.uint_of_string s; Some (Z.of_N (N.of_uint u))
  end.

(** The text before and after the first ['.'], if there is one. *)
Fixpoint split_dot (s : string) : string * option string :=
  match s with
  | EmptyString => (EmptyString, None)
  | String c rest =>
      if Ascii.eqb c "."%char then (EmptyString, Some rest)
      else let '(a, b) := split_dot rest in (String c a, b)
  end.

(** A leading sign. *)
Definition split_sign (s : string) : bool * string :=
  match s with
  | String "-"%char rest => (true, rest)
  | String "+"%char rest => (false, rest)
  | _ => (false, s)
  end.

Definition parse_decimal (s : string) : option Q :=
  let '(neg, body) := split_sign s in
  let '(ip, fp) := split_dot body in
  let fp := default EmptyString fp in
  n ← digits (ip ++ fp);
  let q := Qred (n # Z.to_pos (10 ^ Z.of_nat (String.length fp))) in
  Some (if neg then - q else q).

Definition parse_int (s : string) : option Z :=
  let '(neg, body) := split_sign s in
  n ← digits body;
  Some (if neg then - n else n)%Z.

(** Days from 1970-01-01 to a date of the proleptic Gregorian calendar. *)
Definition days_from_civil (y m d : Z) : Z :=
  let y := (if m <=? 2 then y - 1 else y)%Z in
  let era := (y / 400)%Z in
  let yoe := (y - era * 400)%Z in
  let mp := (if 2 <? m then m - 3 else m + 9)%Z in
  let doy := ((153 * mp + 2) / 5 + d - 1)%Z in
  let doe := (yoe * 365 + yoe / 4 - yoe / 100 + doy)%Z in
  (era * 146097 + doe - 719468)%Z.

Definition is_leap (y : Z) : bool :=
  ((y mod 4 =? 0) && negb (y mod 100 =? 0) || (y mod 400 =? 0))%Z.

Definition days_in_month (y m : Z) : Z :=
  (if m =? 2 then (if is_leap y then 29 else 28)
   else if (m =? 4) || (m =? 6) || (m =? 9) || (m =? 11) then 30 else 31)%Z.

(** The digits of the field at [pos], of [len] characters. *)
Definition field (s : string) (pos len : nat) : option Z :=
  let f := String.substring pos len s in
  if Nat.eqb (String.length f) len then digits f else None.

Definition sep (s : string) (pos : nat) (c : ascii) : option unit :=
  match String.get pos s with
  | Some c' => if Ascii.eqb c c' then Some tt else None
  | None => None
  end.

Definition parse_iso (s : string) : option Z :=
  if negb (Nat.eqb (String.length s) 19) then None else
  y ← field s 0 4; _ ← sep s 4 "-"%char;
  m ← field s 5 2; _ ← sep s 7 "-"%char;
  d ← field s 8 2; _ ← sep s 10 "T"%char;
  h ← field s 11 2; _ ← sep s 13 ":"%char;
  mi ← field s 14 2; _ ← sep s 16 ":"%char;
  se ← field s 17 2;
  if ((1 <=? y) && (1 <=? m) && (m <=? 12) && (1 <=? d) && (d <=? days_in_month y m)
      && (h <? 24) && (mi <? 60) && (se <? 60))%Z
  then Some ((((days_from_civil y m d * 24 + h) * 60 + mi) * 60 + se) * 1000000)%Z
  else None.

(** The nearest multiple of 10^-6, in millionths, ties to even. *)
Definition round_6 (q : Q) : Z :=
  let n := (Qnum q * 1000000)%Z in
  let d := Z.pos (Qden q) in
  let f := (n / d)%Z in
  let r := (n mod d)%Z in
  (if 2 * r <? d then f
   else if d <? 2 * r then f + 1
   else if Z.even f then f else f + 1)%Z.

Definition string_of_N (n : N) : string :=
  DecimalString.NilZero.string_of_uint (N.to_uint n).

Definition render_6f (q : Q) : string :=
  let z := round_6 q in
  let a := Z.abs z in
  let sgn := if Qlt_bool q 0 then "-" else "" in
  let frac := string_of_N (Z.to_N (1000000 + a mod 1000000)) in
  sgn ++ string_of_N (Z.to_N (a / 1000000)) ++ "."
      ++ String.substring 1 6 frac.

(** The runtime with the clock at [now]. *)
Definition runtime (now : Z) : Runtime :=
  {| Decimal := parse_decimal;
     int_of_str := parse_int;
     strptime := parse_iso;
     today := now;
     format_6f := render_6f |}.

End Ref.

(** ** Sample data

    The parameters of the specification's examples: a target of 1000
    vests, a minimum delegation of 10 and a minimum change of 1. *)
Module Sample.

(** 2018-06-01T00:00:00 *)
Definition now : Z := 1527811200000000.

#[export] Instance rt : Runtime := Ref.runtime now.

Definition mk_account (name vesting_shares : string) (from_delegator : option string)
    (last_action rate : string) (withdrawn to_withdraw : Z) : Account :=
  {| name := name;
     vesting_shares := vesting_shares;
     vesting_shares_from_delegator := from_delegator;
     last_bandwidth_update := last_action;
     created := "2017-03-01T00:00:00";
     last_post := "2017-12-24T18:00:00";
     last_vote_time := "1970-01-01T00:00:00";
     vesting_withdraw_rate := rate;
     withdrawn := PyInt withdrawn;
     to_withdraw := PyInt to_withdraw |}.

(** The accounts as the chain sends them. *)
Definition alice : Account :=
  mk_account "alice" "200.000000 VESTS" None "2018-05-20T08:00:00" "0.000000 VESTS" 0 0.
Definition bob : Account :=
  mk_account "bob" "900.000000 VESTS" None "2018-05-20T08:00:00" "0.000000 VESTS" 0 0.
Definition carol : Account :=
  mk_account "carol" "50.000000 VESTS" None "2018-02-01T00:00:00" "12.500000 VESTS" 0 1000.
Definition whale : Account :=
  mk_account "whale" "5000.000000 VESTS" None "2018-05-20T08:00:00" "0.000000 VESTS" 0 0.
Definition spammer : Account :=
  mk_account "spammer" "300.000000 VESTS" None "2018-05-20T08:00:00" "0.000000 VESTS" 7 0.

Definition dave : Account :=
  mk_account "dave" "995.000000 VESTS" None "2018-05-20T08:00:00" "0.000000 VESTS" 0 0.

Definition directory : list Account := [alice; bob; carol; dave; whale; spammer].

Definition lookup_accounts (names : list string) : list Account :=
  omap (fun n => find (fun a => String.eqb (name a) n) directory) names.

Definition delegated : list delegation :=
  [ {| delegatee := "alice"; delegation_vesting_shares := "0.000000 VESTS" |};
    {| delegatee := "bob"; delegation_vesting_shares := "150.000000 VESTS" |};
    {| delegatee := "carol"; delegation_vesting_shares := "20.000000 VESTS" |};
    {| delegatee := "whale"; delegation_vesting_shares := "150.000000 VESTS" |} ].

(** The delegations from the cursor on, the cursor's own entry included. *)
Fixpoint from_cursor (c : string) (l : list delegation) : list delegation :=
  match l with
  | [] => []
  | r :: rest => if String.ltb (delegatee r) c then from_cursor c rest else l
  end.

Definition chain : Steem :=
  {| get_dynamic_global_properties :=
       Ok {| total_vesting_fund_steem := "15.000 STEEM";
             total_vesting_shares := "1000.000000 VESTS" |};
     get_chain_properties := Ok {| account_creation_fee := "0.015 STEEM" |};
     get_vesting_delegations := fun _ last_idx limit =>
       Ok (take (Z.to_nat limit) (from_cursor (default "" last_idx) delegated));
     get_accounts := fun names => Ok (lookup_accounts names) |}.

Definition self : Delegator :=
  {| steem := chain;
     deplorables := {["spammer"]};
     limit := 100;
     logger := fun _ => Ok tt;
     STEEM_PER_VEST := 15 # 1000;
     TARGET_VESTS := 1000;
     MIN_VESTS_DELTA := 1;
     MIN_VESTS := 10 |}.

(** A transaction builder that accepts everything. *)
Definition builder : TransactionBuilder :=
  {| appendOps := fun _ => Ok tt;
     appendWif := fun _ _ _ => Ok tt;
     sign := fun _ _ => Ok tt;
     broadcast := fun _ _ => Ok "ok" |}.

(** The accounts with the amount delegated to them set. *)
Definition alice_0 : Account := set_from_delegator alice "0.000000 VESTS".
Definition bob_150 : Account := set_from_delegator bob "150.000000 VESTS".
Definition carol_20 : Account := set_from_delegator carol "20.000000 VESTS".
Definition whale_150 : Account := set_from_delegator whale "150.000000 VESTS".
Definition spammer_150 : Account := set_from_delegator spammer "150.000000 VESTS".
Definition spammer_half : Account := set_from_delegator spammer "0.500000 VESTS".

(** The decisions the policy takes on them. *)
Definition mk_delta (acct : Account) (vests : Q) (new old : string) : delta :=
  {| delta_name := name acct;
     delta_shares := vesting_shares acct;
     delta_vests := vests;
     new_vests := new;
     old_vests := old |}.

Definition alice_delta : delta :=
  mk_delta alice 800 "800.000000 VESTS" "0.000000 VESTS".
Definition bob_delta : delta :=
  mk_delta bob (-50) "100.000000 VESTS" "150.000000 VESTS".
Definition whale_delta : delta :=
  mk_delta whale (-150) "0.000000 VESTS" "150.000000 VESTS".
Definition spammer_delta : delta :=
  mk_delta spammer (-150) "0.000000 VESTS" "150.000000 VESTS".
Definition spammer_half_delta : delta :=
  mk_delta spammer (19 # 2) "10.000000 VESTS" "0.500000 VESTS".

(** The records of the delegation list. *)
Definition carol_record : delegation :=
  {| delegatee := "carol"; delegation_vesting_shares := "20.000000 VESTS" |}.
Definition whale_record : delegation :=
  {| delegatee := "whale"; delegation_vesting_shares := "150.000000 VESTS" |}.

Definition mallory : Account :=
  mk_account "whale" "n/a" None "2018-05-20T08:00:00" "0.000000 VESTS" 0 0.

(** A chain that lists [records] and sends [accs] whatever is asked, and
    the delegator on it. *)
Definition chain_with (records : list delegation) (accs : list Account) : Steem :=
  {| get_dynamic_global_properties := get_dynamic_global_properties chain;
     get_chain_properties := get_chain_properties chain;
     get_vesting_delegations := fun _ _ _ => Ok records;
     get_accounts := fun _ => Ok accs |}.

Definition self_on (c : Steem) : Delegator :=
  {| steem := c;
     deplorables := {["spammer"]};
     limit := 100;
     logger := fun _ => Ok tt;
     STEEM_PER_VEST := 15 # 1000;
     TARGET_VESTS := 1000;
     MIN_VESTS_DELTA := 1;
     MIN_VESTS := 10 |}.

(** A chain without vesting shares. *)
Definition empty_chain : Steem :=
  {| get_dynamic_global_properties :=
       Ok {| total_vesting_fund_steem := "15.000 STEEM";
             total_vesting_shares := "0.000000 VESTS" |};
     get_chain_properties := get_chain_properties chain;
     get_vesting_delegations := get_vesting_delegations chain;
     get_accounts := get_accounts chain |}.

(** A transaction builder whose broadcast is rejected. *)
Definition rejecting_builder : TransactionBuilder :=
  {| appendOps := fun _ => Ok tt;
     appendWif := fun _ _ _ => Ok tt;
     sign := fun _ _ => Ok tt;
     broadcast := fun _ _ => Raise (ExternalError "rejected") |}.

(** The operations for the decisions on the first page. *)
Definition page_ops : list operation :=
  [ DelegateVestingShares "redeemer" "800.000000 VESTS" "alice";
    DelegateVestingShares "redeemer" "100.000000 VESTS" "bob";
    DelegateVestingShares "redeemer" "0.000000 VESTS" "whale" ].

End Sample.

(** ** Facts on the comparisons *)

Lemma Qlt_bool_iff x y : Qlt_bool x y = true <-> x < y.
Proof.
  unfold Qlt_bool. rewrite negb_true_iff.
  split; intros H.
  - apply Qnot_le_lt. intros Hle. apply Qle_bool_iff in Hle. congruence.
  - destruct (Qle_bool y x) eqn:E; [|reflexivity].
    apply Qle_bool_iff in E. exfalso. apply (Qlt_not_le _ _ H E).
Qed.

Lemma Qlt_bool_false x y : Qlt_bool x y = false <-> y <= x.
Proof.
  unfold Qlt_bool. rewrite negb_false_iff. apply Qle_bool_iff.
Qed.

Lemma Qle_bool_false x y : Qle_bool x y = false <-> y < x.
Proof.
  rewrite <- Qlt_bool_iff. unfold Qlt_bool.
  destruct (Qle_bool x y); simpl; intuition congruence.
Qed.

Lemma Qeq_bool_false x y : Qeq_bool x y = false <-> ~ x == y.
Proof.
  split; [apply Qeq_bool_neq|].
  intros H. destruct (Qeq_bool x y) eqn:E; [|reflexivity].
  apply Qeq_bool_iff in E. contradiction.
Qed.

Lemma py_max_spec a b : a <= py_max a b /\ b <= py_max a b.
Proof.
  unfold py_max. destruct (Qlt_bool a b) eqn:E.
  - apply Qlt_bool_iff in E. split; lra.
  - apply Qlt_bool_false in E. split; lra.
Qed.

(** ** The executable runtime on sample texts *)

Example ref_decimal : Ref.parse_decimal "3.000" = Some 3 /\ Ref.parse_decimal "-0.25" = Some (-1 # 4)
  /\ Ref.parse_decimal "12" = Some 12 /\ Ref.parse_decimal "abc" = None /\ Ref.parse_decimal "" = None.
Proof. repeat split; reflexivity. Qed.

Example ref_strptime :
  Ref.parse_iso "1970-01-02T00:00:01" = Some 86401000000%Z
  /\ Ref.parse_iso "2018-03-01T12:30:00" = Some 1519907400000000%Z
  /\ Ref.parse_iso "2018-02-30T12:30:00" = None.
Proof. repeat split; reflexivity. Qed.

Example ref_format :
  Ref.render_6f 800 = "800.000000" /\ Ref.render_6f 0 = "0.000000"
  /\ Ref.render_6f (100000004 # 10000000) = "10.000000"
  /\ Ref.render_6f (-5 # 2) = "-2.500000".
Proof. repeat split; reflexivity. Qed.

(** ** The sizing policy, step by step *)

Ltac qprop :=
  repeat match goal with
  | H : Qlt_bool _ _ = true |- _ => apply Qlt_bool_iff in H
  | H : Qlt_bool _ _ = false |- _ => apply Qlt_bool_false in H
  | H : Qle_bool _ _ = true |- _ => apply Qle_bool_iff in H
  | H : Qle_bool _ _ = false |- _ => apply Qle_bool_false in H
  | H : Qeq_bool _ _ = true |- _ => apply Qeq_bool_iff in H
  | H : Qeq_bool _ _ = false |- _ => apply Qeq_bool_false in H
  | H : andb _ _ = true |- _ => apply andb_true_iff in H; destruct H
  end.

Section PolicyFacts.

Context {RT : Runtime}.
Implicit Types (self : Delegator) (acct : Account) (d : delta).

(** The function once its five fallible steps have succeeded. *)
Lemma vests_to_delegate_steps self acct av old_text old c skip :
  amount (vesting_shares acct) = Ok av ->
  vesting_shares_from_delegator acct = Some old_text ->
  amount old_text = Ok old ->
  candidate_vests self acct av = Ok c ->
  skip_increase acct av = Ok skip ->
  vests_to_delegate self acct =
    if Qlt_bool old c && skip then Ok None
    else if Qlt_bool (Qabs (round_or_raise self c old - old)) (MIN_VESTS_DELTA self)
    then Ok None
    else Ok (Some {| delta_name := name acct;
                     delta_shares := vesting_shares acct;
                     delta_vests := round_or_raise self c old - old;
                     new_vests := format_6f (round_or_raise self c old) ++ " VESTS";
                     old_vests := old_text |}).
Proof.
  intros Hav Ht Hold Hc Hs. unfold vests_to_delegate.
  rewrite Hav, Ht. cbn [mbind result_bind of_option].
  rewrite Hold. cbn [mbind result_bind].
  rewrite Hc. cbn [mbind result_bind].
  rewrite Hs. reflexivity.
Qed.

(** A result is reached only through the five steps. *)
Lemma vests_to_delegate_Ok self acct r :
  vests_to_delegate self acct = Ok r ->
  exists av old_text old c skip,
    amount (vesting_shares acct) = Ok av
    /\ vesting_shares_from_delegator acct = Some old_text
    /\ amount old_text = Ok old
    /\ candidate_vests self acct av = Ok c
    /\ skip_increase acct av = Ok skip.
Proof.
  unfold vests_to_delegate. intros H.
  destruct (amount (vesting_shares acct)) as [av|] eqn:Hav; [|discriminate].
  destruct (vesting_shares_from_delegator acct) as [old_text|] eqn:Ht; [|discriminate].
  cbn [mbind result_bind of_option] in H.
  destruct (amount old_text) as [old|] eqn:Hold; [|discriminate].
  cbn [mbind result_bind] in H.
  destruct (candidate_vests self acct av) as [c|] eqn:Hc; [|discriminate].
  cbn [mbind result_bind] in H.
  destruct (skip_increase acct av) as [skip|] eqn:Hs; [|discriminate].
  exists av, old_text, old, c, skip. auto.
Qed.

(** What an emitted decision carries. *)
Lemma vests_to_delegate_Some self acct d :
  vests_to_delegate self acct = Ok (Some d) ->
  exists av old c skip target,
    amount (vesting_shares acct) = Ok av
    /\ amount (old_vests d) = Ok old
    /\ vesting_shares_from_delegator acct = Some (old_vests d)
    /\ candidate_vests self acct av = Ok c
    /\ skip_increase acct av = Ok skip
    /\ Qlt_bool old c && skip = false
    /\ target = round_or_raise self c old
    /\ delta_vests d = target - old
    /\ new_vests d = format_6f target ++ " VESTS"
    /\ MIN_VESTS_DELTA self <= Qabs (delta_vests d).
Proof.
  intros H.
  destruct (vests_to_delegate_Ok _ _ _ H)
    as (av & old_text & old & c & skip & Hav & Ht & Hold & Hc & Hs).
  rewrite (vests_to_delegate_steps _ _ _ _ _ _ _ Hav Ht Hold Hc Hs) in H.
  destruct (Qlt_bool old c && skip) eqn:Hg; [discriminate|].
  destruct (Qlt_bool _ (MIN_VESTS_DELTA self)) eqn:Hm; [discriminate|].
  injection H as <-. cbn [old_vests delta_vests new_vests].
  exists av, old, c, skip, (round_or_raise self c old).
  qprop. repeat split; auto.
Qed.



End PolicyFacts.

(** ** The claims on the sizing policy *)

Section PolicyClaims.

Context {RT : Runtime}.
Implicit Types (self : Delegator) (acct : Account) (d : delta).

(** With a candidate of 0 and a delegation of at least the minimum change,
    the decision resets the delegation. *)
Lemma reset_decision self acct av old_text old skip :
  amount (vesting_shares acct) = Ok av ->
  vesting_shares_from_delegator acct = Some old_text ->
  amount old_text = Ok old ->
  candidate_vests self acct av = Ok 0 ->
  skip_increase acct av = Ok skip ->
  0 <= old -> MIN_VESTS_DELTA self <= old ->
  exists d, vests_to_delegate self acct = Ok (Some d)
            /\ delta_vests d == - old
            /\ new_vests d = format_6f 0 ++ " VESTS".
Proof.
  intros Hav Ht Hold Hc Hs H0 Hmin.
  rewrite (vests_to_delegate_steps _ _ _ _ _ _ _ Hav Ht Hold Hc Hs).
  assert (Hg : Qlt_bool old 0 = false) by (apply Qlt_bool_false; lra).
  assert (Hr : round_or_raise self 0 old = 0).
  { unfold round_or_raise.
    replace (Qlt_bool 0 0) with false by reflexivity.
    replace (Qlt_bool old (MIN_VESTS_DELTA self)) with false
      by (symmetry; apply Qlt_bool_false; lra).
    rewrite andb_false_r. reflexivity. }
  rewrite Hg, Hr. cbn [andb].
  replace (Qlt_bool (Qabs (0 - old)) (MIN_VESTS_DELTA self)) with false.
  - eexists. split; [reflexivity|]. cbn [delta_vests new_vests]. split; [lra|reflexivity].
  - symmetry. apply Qlt_bool_false. apply Qabs_case; intros; lra.
Qed.

(** With a candidate of 0 and a delegation under the minimum change, the
    decision raises the delegation, whatever the guard says. *)
Lemma raise_decision self acct av old_text old skip :
  amount (vesting_shares acct) = Ok av ->
  vesting_shares_from_delegator acct = Some old_text ->
  amount old_text = Ok old ->
  candidate_vests self acct av = Ok 0 ->
  skip_increase acct av = Ok skip ->
  0 <= old -> old < MIN_VESTS_DELTA self ->
  exists d, vests_to_delegate self acct = Ok (Some d)
            /\ MIN_VESTS_DELTA self <= delta_vests d
            /\ delta_vests d
               == py_max (MIN_VESTS self) (old + MIN_VESTS_DELTA self) - old.
Proof.
  intros Hav Ht Hold Hc Hs H0 Hlt.
  rewrite (vests_to_delegate_steps _ _ _ _ _ _ _ Hav Ht Hold Hc Hs).
  assert (Hg : Qlt_bool old 0 = false) by (apply Qlt_bool_false; lra).
  assert (Hr : round_or_raise self 0 old
               = py_max (MIN_VESTS self) (old + MIN_VESTS_DELTA self)).
  { unfold round_or_raise.
    replace (Qlt_bool 0 0) with false by reflexivity.
    replace (Qlt_bool old (MIN_VESTS_DELTA self)) with true
      by (symmetry; apply Qlt_bool_iff; lra).
    reflexivity. }
  rewrite Hg, Hr. cbn [andb].
  destruct (py_max_spec (MIN_VESTS self) (old + MIN_VESTS_DELTA self)) as [_ Hm].
  replace (Qlt_bool (Qabs _) (MIN_VESTS_DELTA self)) with false.
  - eexists. split; [reflexivity|]. cbn [delta_vests]. split; lra.
  - symmetry. apply Qlt_bool_false. apply Qabs_case; intros; lra.
Qed.

(** C1, amended.  An account whose own stake reaches the target has a
    candidate of 0, inactive or not; when the amount delegated to it is at
    least the minimum change, the decision is not "no action": it removes
    the delegation (the delta is the opposite of the delegated amount and
    the new amount is 0). *)
Theorem C1_self_sufficient_is_reset self acct av old_text old skip :
  amount (vesting_shares acct) = Ok av ->
  TARGET_VESTS self <= av ->
  vesting_shares_from_delegator acct = Some old_text ->
  amount old_text = Ok old ->
  skip_increase acct av = Ok skip ->
  0 <= old -> MIN_VESTS_DELTA self <= old ->
  candidate_vests self acct av = Ok 0
  /\ exists d, vests_to_delegate self acct = Ok (Some d)
               /\ delta_vests d == - old
               /\ new_vests d = format_6f 0 ++ " VESTS".
Proof.
  intros Hav Hge Ht Hold Hs H0 Hmin.
  assert (Hc : candidate_vests self acct av = Ok 0).
  { unfold candidate_vests. destruct (bool_decide _); [reflexivity|].
    replace (Qle_bool (TARGET_VESTS self) av) with true; [reflexivity|].
    symmetry. apply Qle_bool_iff. exact Hge. }
  split; [exact Hc|]. eapply reset_decision; eauto.
Qed.

(** C2.  An emitted decision carries a delta whose absolute value is at
    least the minimum change; the delta is the difference between the
    amount that [new_vests] renders and the amount read from [old_vests]. *)
Theorem C2_min_change_filter self acct d :
  vests_to_delegate self acct = Ok (Some d) ->
  MIN_VESTS_DELTA self <= Qabs (delta_vests d)
  /\ exists target old,
       amount (old_vests d) = Ok old
       /\ delta_vests d = target - old
       /\ new_vests d = format_6f target ++ " VESTS".
Proof.
  intros H.
  destruct (vests_to_delegate_Some _ _ _ H)
    as (av & old & c & skip & target & _ & Hold & _ & _ & _ & _ & _ & Hd & Hn & Hm).
  split; [exact Hm|]. exists target, old. auto.
Qed.

(** C5.  For an account of the exclusion set the candidate is 0; when the
    amount delegated to it is at least the minimum change (which is
    positive), an emitted decision has a negative delta, the opposite of
    the delegated amount. *)
Theorem C5_excluded_driven_to_zero self acct d old :
  name acct ∈ deplorables self ->
  0 < MIN_VESTS_DELTA self ->
  vests_to_delegate self acct = Ok (Some d) ->
  amount (old_vests d) = Ok old ->
  MIN_VESTS_DELTA self <= old ->
  (forall av, candidate_vests self acct av = Ok 0)
  /\ delta_vests d < 0
  /\ delta_vests d == - old.
Proof.
  intros Hin Hpos H Hold Hmin.
  assert (Hc : forall av, candidate_vests self acct av = Ok 0).
  { intros av. unfold candidate_vests. rewrite bool_decide_eq_true_2 by exact Hin.
    reflexivity. }
  split; [exact Hc|].
  destruct (vests_to_delegate_Ok _ _ _ H)
    as (av & old_text & old' & c & skip & Hav & Ht & Hold' & Hc' & Hs).
  rewrite Hc in Hc'. injection Hc' as <-.
  destruct (vests_to_delegate_Some _ _ _ H)
    as (_ & _ & _ & _ & _ & _ & _ & Ht' & _).
  rewrite Ht in Ht'. injection Ht' as ->.
  rewrite Hold in Hold'. injection Hold' as <-.
  destruct (reset_decision self acct av _ old skip Hav Ht Hold (Hc av) Hs)
    as (d' & Hd' & Hdelta & _); [lra|lra|].
  rewrite H in Hd'. injection Hd' as <-.
  split; lra.
Qed.


(** For a positive candidate the rounding does not look at the amount
    delegated so far. *)
Lemma round_or_raise_pos self c old :
  0 < c ->
  round_or_raise self c old = if Qlt_bool c (MIN_VESTS self) then MIN_VESTS self else c.
Proof.
  intros Hc. unfold round_or_raise.
  replace (Qlt_bool 0 c) with true by (symmetry; apply Qlt_bool_iff; exact Hc).
  replace (Qeq_bool c 0) with false by (symmetry; apply Qeq_bool_false; lra).
  reflexivity.
Qed.


(** C4, amended.  For an account whose candidate of Step 1 is positive and
    on which a decision is emitted, the run on the same record with the
    delegated amount replaced by the decision's [new_vests], read back to
    within less than the minimum change of the amount it renders, yields
    "no action". *)
Theorem C4_idempotent_on_positive_candidate self acct d av c old q' :
  amount (vesting_shares acct) = Ok av ->
  candidate_vests self acct av = Ok c ->
  0 < c ->
  vests_to_delegate self acct = Ok (Some d) ->
  amount (old_vests d) = Ok old ->
  amount (new_vests d) = Ok q' ->
  Qabs (q' - (delta_vests d + old)) < MIN_VESTS_DELTA self ->
  vests_to_delegate self (set_from_delegator acct (new_vests d)) = Ok None.
Proof.
  intros Hav Hc Hpos H Hold Hq' Hclose.
  destruct (vests_to_delegate_Some _ _ _ H)
    as (av' & old' & c' & skip & target & Hav' & Hold' & _ & Hc' & Hs & _ & Ht & Hd & _).
  rewrite Hav in Hav'. injection Hav' as <-.
  rewrite Hc in Hc'. injection Hc' as <-.
  rewrite Hold in Hold'. injection Hold' as <-.
  rewrite (vests_to_delegate_steps self (set_from_delegator acct (new_vests d))
             av (new_vests d) q' c skip Hav eq_refl Hq' Hc Hs).
  destruct (Qlt_bool q' c && skip); [reflexivity|].
  rewrite (round_or_raise_pos self c q' Hpos).
  rewrite (round_or_raise_pos self c old Hpos) in Ht.
  rewrite <- Ht.
  replace (Qlt_bool (Qabs (target - q')) (MIN_VESTS_DELTA self)) with true;
    [reflexivity|].
  symmetry. apply Qlt_bool_iff. rewrite Hd in Hclose.
  apply Qabs_Qlt_condition in Hclose. apply Qabs_Qlt_condition. lra.
Qed.


End PolicyClaims.

(** ** The account pager *)

Lemma dict_get_set d k v k' :
  dict_get (dict_set d k v) k' = if String.eqb k k' then Ok v else dict_get d k'.
Proof.
  induction d as [|[k0 v0] d IH]; cbn [dict_set dict_get].
  - reflexivity.
  - destruct (String.eqb k0 k) eqn:E0; cbn [dict_get].
    + apply String.eqb_eq in E0. subst k0.
      destruct (String.eqb k k'); reflexivity.
    + destruct (String.eqb k0 k') eqn:E1.
      * apply String.eqb_eq in E1. subst k'. rewrite String.eqb_sym, E0. reflexivity.
      * exact IH.
Qed.

Lemma dict_keys_set d k v n :
  In n (dict_keys (dict_set d k v)) <-> n = k \/ In n (dict_keys d).
Proof.
  unfold dict_keys. induction d as [|[k0 v0] d IH]; cbn [dict_set map In fst].
  - intuition.
  - destruct (String.eqb k0 k) eqn:E0; cbn [map In fst].
    + apply String.eqb_eq in E0. subst k0. intuition.
    + rewrite IH. intuition.
Qed.

(** The dict of line 75 from a dict [d0]: its keys are the delegatees, and
    a value found in it is a record's amount. *)
Lemma delegations_from_keys results d0 n :
  In n (dict_keys (fold_left (fun d r => dict_set d (delegatee r)
                                           (delegation_vesting_shares r)) results d0))
  <-> In n (dict_keys d0) \/ In n (map delegatee results).
Proof.
  revert d0. induction results as [|r rest IH]; intros d0; cbn [fold_left map In].
  - intuition.
  - rewrite IH, dict_keys_set. intuition.
Qed.

Lemma delegations_from_get results d0 k v :
  dict_get (fold_left (fun d r => dict_set d (delegatee r)
                                    (delegation_vesting_shares r)) results d0) k = Ok v ->
  dict_get d0 k = Ok v
  \/ exists r, In r results /\ delegatee r = k /\ delegation_vesting_shares r = v.
Proof.
  revert d0. induction results as [|r rest IH]; intros d0; cbn [fold_left].
  - auto.
  - intros H. destruct (IH _ H) as [H1 | (r' & Hin & Hk & Hv)].
    + rewrite dict_get_set in H1.
      destruct (String.eqb (delegatee r) k) eqn:E.
      * apply String.eqb_eq in E. injection H1 as <-.
        right. exists r. cbn [In]. auto.
      * auto.
    + right. exists r'. cbn [In]. auto.
Qed.

Lemma delegations_of_keys results n :
  In n (dict_keys (delegations_of results)) <-> In n (map delegatee results).
Proof.
  unfold delegations_of. rewrite delegations_from_keys. cbn [dict_keys map In]. intuition.
Qed.

Lemma delegations_of_get results k v :
  dict_get (delegations_of results) k = Ok v ->
  exists r, In r results /\ delegatee r = k /\ delegation_vesting_shares r = v.
Proof.
  intros H. destruct (delegations_from_get _ _ _ _ H) as [H0 | H0].
  - discriminate.
  - exact H0.
Qed.

(** The accounts that leave the loop of lines 77-78 carry the amount of a
    record of the dict. *)
Lemma attach_delegations_In results accounts accounts' acct :
  attach_delegations (delegations_of results) accounts = Ok accounts' ->
  In acct accounts' ->
  exists r, In r results /\ delegatee r = name acct
            /\ vesting_shares_from_delegator acct = Some (delegation_vesting_shares r).
Proof.
  revert accounts'. induction accounts as [|a rest IH]; intros accounts';
    cbn [attach_delegations].
  - intros [= <-] [].
  - destruct (dict_get (delegations_of results) (name a)) as [v|] eqn:Hv;
      [|discriminate].
    cbn [mbind result_bind].
    destruct (attach_delegations (delegations_of results) rest) as [rest'|];
      [|discriminate].
    cbn [mbind result_bind]. intros [= <-] [<- | Hin].
    + destruct (delegations_of_get _ _ _ Hv) as (r & Hr & Hk & Hvv).
      exists r. cbn [name vesting_shares_from_delegator set_from_delegator].
      subst v. auto.
    + eapply IH; eauto.
Qed.

(** What the conditional [pop] of lines 67-70 keeps. *)
Lemma pop_cursor_drop c r rest :
  c <> "" -> delegatee r = c -> pop_cursor (Some c) (r :: rest) = rest.
Proof.
  intros Hc Hr. unfold pop_cursor, cursor_truthy, cursor_eqb.
  replace (String.eqb c "") with false
    by (symmetry; apply String.eqb_neq; exact Hc).
  replace (String.eqb (delegatee r) c) with true
    by (symmetry; apply String.eqb_eq; exact Hr).
  reflexivity.
Qed.

Lemma pop_cursor_keep last_idx results :
  last_idx = None \/ last_idx = Some "" \/ results = []
  \/ (exists r rest, results = r :: rest /\ last_idx <> Some (delegatee r)) ->
  pop_cursor last_idx results = results.
Proof.
  unfold pop_cursor, cursor_truthy, cursor_eqb.
  intros [-> | [-> | [-> | (r & rest & -> & Hne)]]]; try reflexivity.
  - destruct results; reflexivity.
  - destruct results; reflexivity.
  - destruct last_idx as [c|]; [|reflexivity].
    destruct (String.eqb (delegatee r) c) eqn:E.
    + apply String.eqb_eq in E. subst c. contradiction.
    + rewrite andb_false_r. reflexivity.
Qed.

(** The pager once the query has answered. *)
Lemma get_delegated_accounts_steps self account last_idx results :
  get_vesting_delegations (steem self) account last_idx (limit self) = Ok results ->
  get_delegated_accounts self account last_idx =
    match pop_cursor last_idx results with
    | [] => mkM [GetVestingDelegations account last_idx (limit self)] (Ok ([], None))
    | r0 :: rest =>
        let kept := r0 :: rest in
        let names := dict_keys (delegations_of kept) in
        mkM [GetVestingDelegations account last_idx (limit self); GetAccounts names]
            (accounts ← get_accounts (steem self) names;
             accounts ← attach_delegations (delegations_of kept) accounts;
             Ok (accounts, Some (delegatee (List.last kept r0))))
    end.
Proof.
  intros H. unfold get_delegated_accounts. rewrite H.
  unfold call, pure_step, mbind, M_bind, mret, M_ret. cbn [outcome trace].
  destruct (pop_cursor last_idx results) as [|r0 rest]; [reflexivity|].
  cbn [outcome trace app].
  destruct (get_accounts _ _) as [accounts|]; cbn [outcome trace app result_bind];
    [|reflexivity].
  destruct (attach_delegations _ _); cbn [outcome trace app]; reflexivity.
Qed.

(** C8.  The records the page is built from are the query's without the
    first one when the cursor is non-empty and is the first record's
    delegatee, and all of them otherwise; the names asked of
    [get_accounts] are the delegatees of these records, and each returned
    account is named by one of them and carries its amount. *)
Theorem C8_cursor_dedup self account last_idx results :
  get_vesting_delegations (steem self) account last_idx (limit self) = Ok results ->
  exists kept,
    (forall c r rest, last_idx = Some c -> c <> "" -> results = r :: rest ->
                      delegatee r = c -> kept = rest)
    /\ (last_idx = None \/ last_idx = Some "" \/ results = []
        \/ (exists r rest, results = r :: rest /\ last_idx <> Some (delegatee r)) ->
        kept = results)
    /\ (kept = [] ->
        trace (get_delegated_accounts self account last_idx)
        = [GetVestingDelegations account last_idx (limit self)])
    /\ (kept <> [] ->
        exists names,
          trace (get_delegated_accounts self account last_idx)
          = [GetVestingDelegations account last_idx (limit self); GetAccounts names]
          /\ forall n, In n names <-> In n (map delegatee kept))
    /\ (forall accounts next acct,
          outcome (get_delegated_accounts self account last_idx) = Ok (accounts, next) ->
          In acct accounts ->
          exists r, In r kept /\ delegatee r = name acct
                    /\ vesting_shares_from_delegator acct
                       = Some (delegation_vesting_shares r)).
Proof.
  intros H. exists (pop_cursor last_idx results).
  rewrite (get_delegated_accounts_steps _ _ _ _ H).
  split; [|split; [|split; [|split]]].
  - intros c r rest -> Hc -> Hr. apply pop_cursor_drop; assumption.
  - apply pop_cursor_keep.
  - intros ->. reflexivity.
  - destruct (pop_cursor last_idx results) as [|r0 rest]; [congruence|].
    intros _. eexists. split; [reflexivity|].
    intros n. apply delegations_of_keys.
  - destruct (pop_cursor last_idx results) as [|r0 rest].
    + cbn [outcome]. intros accounts next acct [= <- _] [].
    + cbn [outcome]. intros accounts next acct Hout Hin.
      destruct (get_accounts _ _) as [accs|]; [|discriminate].
      cbn [mbind result_bind] in Hout.
      destruct (attach_delegations _ accs) as [accs'|] eqn:Ha; [|discriminate].
      cbn [mbind result_bind] in Hout. injection Hout as <- _.
      eapply attach_delegations_In; eauto.
Qed.

(** C9.  When no record remains after the conditional [pop], the pager
    returns the empty list of accounts with the cursor [None], and asks
    for no account. *)
Theorem C9_terminal_cursor self account last_idx results :
  get_vesting_delegations (steem self) account last_idx (limit self) = Ok results ->
  pop_cursor last_idx results = [] ->
  get_delegated_accounts self account last_idx
  = mkM [GetVestingDelegations account last_idx (limit self)] (Ok ([], None)).
Proof.
  intros H Hpop. rewrite (get_delegated_accounts_steps _ _ _ _ H), Hpop. reflexivity.
Qed.

(** ** The page pipeline *)

Lemma In_trace_bind {A B} (m : M A) (k : A -> M B) ev :
  In ev (trace (m ≫= k)) ->
  In ev (trace m) \/ exists a, outcome m = Ok a /\ In ev (trace (k a)).
Proof.
  unfold mbind, M_bind. destruct (outcome m) as [a|e] eqn:E; cbn [trace].
  - rewrite in_app_iff. intros [H | H]; [left; exact H|].
    right. exists a. split; [reflexivity|exact H].
  - auto.
Qed.

Lemma outcome_bind {A B} (m : M A) (k : A -> M B) :
  outcome (m ≫= k) = match outcome m with
                      | Ok a => outcome (k a)
                      | Raise e => Raise e
                      end.
Proof.
  unfold mbind, M_bind. destruct (outcome m); reflexivity.
Qed.

Section PipelineClaims.

Context {RT : Runtime}.
Variable TB : TransactionBuilder.

Lemma append_wifs_trace ops added wifs ev :
  In ev (trace (append_wifs TB ops added wifs)) -> exists wif, ev = AppendWif wif.
Proof.
  revert added. induction wifs as [|wif rest IH]; intros added; cbn [append_wifs].
  - intros [].
  - intros H. apply In_trace_bind in H. destruct H as [H | (_ & _ & H)].
    + destruct H as [<- | []]. eauto.
    + eapply IH; eauto.
Qed.

(** The calls the pager makes are queries. *)
Lemma get_delegated_accounts_trace self account last_idx ev :
  In ev (trace (get_delegated_accounts self account last_idx)) ->
  ev = GetVestingDelegations account last_idx (limit self)
  \/ exists names, ev = GetAccounts names.
Proof.
  unfold get_delegated_accounts. intros H.
  apply In_trace_bind in H. destruct H as [[<- | []] | (results & _ & H)]; [auto|].
  destruct (pop_cursor last_idx results) as [|r0 rest]; [destruct H|].
  apply In_trace_bind in H. destruct H as [[<- | []] | (accounts & _ & H)]; [eauto|].
  apply In_trace_bind in H. destruct H as [[] | (accounts' & _ & [])].
Qed.

(** The calls of a dry run. *)
Lemma delegate_dry_run_trace self delegator last_idx expiration wifs ev :
  In ev (trace (delegate TB self delegator last_idx expiration true wifs)) ->
  (exists a c l, ev = GetVestingDelegations a c l)
  \/ (exists names, ev = GetAccounts names)
  \/ ev = NewTransactionBuilder expiration
  \/ (exists ops, ev = AppendOps ops)
  \/ (exists wif, ev = AppendWif wif)
  \/ (ev = Sign /\ wifs <> []).
Proof.
  unfold delegate. intros H.
  apply In_trace_bind in H. destruct H as [H | ([accounts next] & _ & H)].
  { apply get_delegated_accounts_trace in H. destruct H as [-> | H]; eauto 10. }
  destruct accounts as [|acct accounts]; [destruct H|].
  apply In_trace_bind in H. destruct H as [[] | (deltas & _ & H)].
  destruct deltas as [|d deltas]; [destruct H|].
  apply In_trace_bind in H. destruct H as [[<- | []] | (_ & _ & H)]; [auto 10|].
  apply In_trace_bind in H. destruct H as [[<- | []] | (_ & _ & H)]; [eauto 10|].
  apply In_trace_bind in H. destruct H as [H | (_ & _ & H)].
  { apply append_wifs_trace in H. auto 10. }
  apply In_trace_bind in H. destruct H as [H | (_ & _ & H)].
  { destruct wifs as [|wif rest]; [destruct H|].
    destruct H as [<- | []]. do 5 right. split; [reflexivity|discriminate]. }
  cbn [negb] in H.
  apply In_trace_bind in H. destruct H as [[] | (_ & _ & [])].
Qed.

(** A dry run returns what the run that broadcasts returns. *)
Lemma delegate_dry_run_outcome self delegator last_idx expiration wifs r :
  outcome (delegate TB self delegator last_idx expiration false wifs) = Ok r ->
  outcome (delegate TB self delegator last_idx expiration true wifs) = Ok r.
Proof.
  unfold delegate. rewrite !outcome_bind.
  destruct (outcome (get_delegated_accounts self delegator last_idx))
    as [[accounts next]|]; [|intros Hr; discriminate Hr].
  destruct accounts as [|acct accounts]; cbv beta iota; [auto|].
  rewrite !outcome_bind.
  destruct (outcome (pure_step _)) as [deltas|]; [|intros Hr; discriminate Hr].
  destruct deltas as [|d deltas]; cbv beta iota; [auto|].
  repeat (rewrite ?outcome_bind; cbn [negb];
          match goal with
          | |- context [outcome (call ?ev ?x)] => destruct (outcome (call ev x))
          | |- context [outcome (append_wifs ?a ?b ?c ?e)] =>
              destruct (outcome (append_wifs a b c e))
          | |- context [outcome (match ?w with [] => _ | _ :: _ => _ end)] =>
              destruct w
          end; try (intros Hr; discriminate Hr)).
  all: cbn; auto.
Qed.

(** C3, amended.  In a dry run the pipeline never calls [broadcast] (nor
    the logger, nor [sleep]), for every input, and returns what the run
    that broadcasts returns; it calls [sign] only when signing keys are
    passed. *)
Theorem C3_dry_run_never_broadcasts self delegator last_idx expiration wifs :
  ~ In Broadcast (trace (delegate TB self delegator last_idx expiration true wifs))
  /\ (forall result,
        ~ In (LogInfo result)
             (trace (delegate TB self delegator last_idx expiration true wifs)))
  /\ (forall pause,
        ~ In (Sleep pause)
             (trace (delegate TB self delegator last_idx expiration true wifs)))
  /\ (In Sign (trace (delegate TB self delegator last_idx expiration true wifs)) ->
      wifs <> [])
  /\ (forall r,
        outcome (delegate TB self delegator last_idx expiration false wifs) = Ok r ->
        outcome (delegate TB self delegator last_idx expiration true wifs) = Ok r).
Proof.
  assert (Hev : forall ev,
             In ev (trace (delegate TB self delegator last_idx expiration true wifs)) ->
             match ev with
             | Broadcast | LogInfo _ | Sleep _ => False
             | Sign => wifs <> []
             | _ => True
             end).
  { intros ev H. apply delegate_dry_run_trace in H.
    destruct H as [(? & ? & ? & ->) | [(? & ->) | [-> | [(? & ->) | [(? & ->) | (-> & Hw)]]]]];
      auto. }
  split; [|split; [|split; [|split]]].
  - intros H. exact (Hev _ H).
  - intros result H. exact (Hev _ H).
  - intros pause H. exact (Hev _ H).
  - intros H. exact (Hev _ H).
  - apply delegate_dry_run_outcome.
Qed.

End PipelineClaims.

(** ** The parameters that [__init__] derives *)

Section InitFacts.

Context {RT : Runtime}.

(** The minimum delegation is ten times the minimum change. *)
Lemma Delegator_init_MIN_VESTS steem limit logger deplorables self :
  Delegator_init steem limit logger deplorables = Ok self ->
  MIN_VESTS self = MIN_VESTS_DELTA self * 10.
Proof.
  unfold Delegator_init. intros H.
  repeat match type of H with
         | mbind _ ?r = _ => destruct r; cbn [mbind result_bind] in H; [|discriminate H]
         end.
  injection H as <-. reflexivity.
Qed.

Lemma Qdiv_pos x y : 0 < x -> 0 < y -> 0 < x / y.
Proof.
  intros Hx Hy. apply Qlt_shift_div_l; [exact Hy|]. lra.
Qed.

Lemma decimal_div_pos x y : 0 < y -> decimal_div x y = Ok (x / y).
Proof.
  intros Hy. unfold decimal_div.
  replace (Qeq_bool y 0) with false; [reflexivity|].
  symmetry. apply Qeq_bool_false. lra.
Qed.

(** From positive chain amounts [__init__] derives positive parameters:
    the invariant of the chain parameters. *)
Lemma Delegator_init_positive steem limit logger deplorables gp cp fund shares fee :
  get_dynamic_global_properties steem = Ok gp ->
  amount (total_vesting_fund_steem gp) = Ok fund ->
  amount (total_vesting_shares gp) = Ok shares ->
  get_chain_properties steem = Ok cp ->
  amount (account_creation_fee cp) = Ok fee ->
  0 < fund -> 0 < shares -> 0 < fee ->
  exists self,
    Delegator_init steem limit logger deplorables = Ok self
    /\ 0 < STEEM_PER_VEST self /\ 0 < TARGET_VESTS self
    /\ 0 < MIN_VESTS_DELTA self /\ 0 < MIN_VESTS self.
Proof.
  intros Hgp Hfund Hshares Hcp Hfee Hf Hs He.
  assert (Hr : 0 < fund / shares) by (apply Qdiv_pos; assumption).
  assert (Ht : 0 < TARGET_SP / (fund / shares))
    by (apply Qdiv_pos; [reflexivity|exact Hr]).
  assert (Hd : 0 < fee / (fund / shares)) by (apply Qdiv_pos; assumption).
  unfold Delegator_init.
  rewrite Hgp. cbn [mbind result_bind]. rewrite Hfund. cbn [mbind result_bind].
  rewrite Hshares. cbn [mbind result_bind]. rewrite Hcp. cbn [mbind result_bind].
  rewrite Hfee. cbn [mbind result_bind].
  rewrite (decimal_div_pos fund shares Hs). cbn [mbind result_bind].
  rewrite !(decimal_div_pos _ _ Hr). cbn [mbind result_bind].
  eexists. split; [reflexivity|].
  cbn [STEEM_PER_VEST TARGET_VESTS MIN_VESTS_DELTA MIN_VESTS].
  repeat split; try assumption. lra.
Qed.

End InitFacts.

(** ** More on the sizing policy *)

Lemma split_space_0_app n u :
  split_space_0 (n ++ " " ++ u) = split_space_0 n.
Proof.
  induction n as [|c rest IH]; simpl.
  - reflexivity.
  - destruct (Ascii.eqb c " "); [reflexivity|]. f_equal. exact IH.
Qed.

Lemma ltb_false_cases a b :
  String.ltb a b = false -> a = b \/ String.ltb b a = true.
Proof.
  unfold String.ltb. destruct (String.compare a b) eqn:E; intros H.
  - left. apply String.compare_eq_iff. exact E.
  - discriminate H.
  - right. rewrite String.compare_antisym, E. reflexivity.
Qed.

Section PolicyMore.

Context {RT : Runtime}.
Implicit Types (self : Delegator) (acct : Account) (d : delta).

(** X1.  [amount] reads the text before the first space only: what
    follows it, the unit, has no influence. *)
Theorem X1_amount_ignores_unit n u :
  amount (n ++ " " ++ u) = amount n.
Proof.
  unfold amount. rewrite split_space_0_app. reflexivity.
Qed.

(** X2.  With a candidate of 0 and a delegated amount that is not
    negative the policy always takes a decision, guard or not: the reset
    to 0 when the amount is at least the minimum change, the raise
    otherwise. *)
Theorem X2_zero_candidate_always_decides self acct av old_text old skip :
  amount (vesting_shares acct) = Ok av ->
  vesting_shares_from_delegator acct = Some old_text ->
  amount old_text = Ok old ->
  candidate_vests self acct av = Ok 0 ->
  skip_increase acct av = Ok skip ->
  0 <= old ->
  exists d, vests_to_delegate self acct = Ok (Some d)
            /\ (MIN_VESTS_DELTA self <= old -> delta_vests d == - old)
            /\ (old < MIN_VESTS_DELTA self ->
                MIN_VESTS_DELTA self <= delta_vests d
                /\ delta_vests d
                   == py_max (MIN_VESTS self) (old + MIN_VESTS_DELTA self) - old).
Proof.
  intros Hav Ht Hold Hc Hs H0.
  destruct (Qlt_le_dec old (MIN_VESTS_DELTA self)) as [Hlt | Hge].
  - destruct (raise_decision self acct av old_text old skip Hav Ht Hold Hc Hs H0 Hlt)
      as (d & Hd & Hmin & Heq).
    exists d. split; [exact Hd|]. split; [intros; lra|]. auto.
  - destruct (reset_decision self acct av old_text old skip Hav Ht Hold Hc Hs H0 Hge)
      as (d & Hd & Heq & _).
    exists d. split; [exact Hd|]. split; [auto|]. intros; lra.
Qed.

(** X3.  Under the guard (withdrawal activity, or an own stake below 200)
    a decision never increases a delegation that is at least the minimum
    delegation and the minimum change. *)
Theorem X3_guard_holds_above_minimum self acct d av old :
  vests_to_delegate self acct = Ok (Some d) ->
  amount (vesting_shares acct) = Ok av ->
  skip_increase acct av = Ok true ->
  amount (old_vests d) = Ok old ->
  MIN_VESTS self <= old ->
  MIN_VESTS_DELTA self <= old ->
  delta_vests d <= 0.
Proof.
  intros H Hav Hs Hold Hmin Hmd.
  destruct (vests_to_delegate_Some _ _ _ H)
    as (av' & old' & c & skip & target & Hav' & Hold' & _ & Hc & Hs' & Hg & Ht & Hd & _).
  rewrite Hav in Hav'. injection Hav' as <-.
  rewrite Hold in Hold'. injection Hold' as <-.
  rewrite Hs in Hs'. injection Hs' as <-.
  rewrite andb_true_r in Hg. rewrite Hd, Ht. clear Hd Ht H.
  unfold round_or_raise.
  destruct (Qlt_bool 0 c) eqn:E1; destruct (Qlt_bool c (MIN_VESTS self)) eqn:E2;
    destruct (Qeq_bool c 0) eqn:E3;
    destruct (Qlt_bool old (MIN_VESTS_DELTA self)) eqn:E4;
    cbn [andb]; qprop; lra.
Qed.



(** X6.  When the order of the four date texts agrees with the order of
    the times they denote, [inactive_days] counts the whole days from the
    latest of the four times to now. *)
Theorem X6_inactive_days_latest acct t1 t2 t3 t4 :
  strptime (last_bandwidth_update acct) = Some t1 ->
  strptime (created acct) = Some t2 ->
  strptime (last_post acct) = Some t3 ->
  strptime (last_vote_time acct) = Some t4 ->
  (forall x y tx ty,
     In x [last_bandwidth_update acct; created acct; last_post acct; last_vote_time acct] ->
     In y [last_bandwidth_update acct; created acct; last_post acct; last_vote_time acct] ->
     strptime x = Some tx -> strptime y = Some ty ->
     String.ltb x y = true -> (tx <= ty)%Z) ->
  inactive_days acct
  = Ok ((today - Z.max (Z.max (Z.max t1 t2) t3) t4) / DAY_US)%Z.
Proof.
  intros H1 H2 H3 H4 Hmono.
  set (l := [last_bandwidth_update acct; created acct; last_post acct;
             last_vote_time acct]) in *.
  assert (Hstep : forall a b ta tb,
             In a l -> In b l -> strptime a = Some ta -> strptime b = Some tb ->
             In (str_max2 a b) l /\ strptime (str_max2 a b) = Some (Z.max ta tb)).
  { intros a b ta tb Ha Hb Hta Htb. unfold str_max2.
    destruct (String.ltb a b) eqn:E.
    - split; [exact Hb|]. rewrite Htb. f_equal.
      pose proof (Hmono a b ta tb Ha Hb Hta Htb E). lia.
    - split; [exact Ha|]. rewrite Hta. f_equal.
      destruct (ltb_false_cases _ _ E) as [-> | E'].
      + rewrite Hta in Htb. injection Htb as <-. lia.
      + pose proof (Hmono b a tb ta Hb Ha Htb Hta E'). lia. }
  assert (I1 : In (last_bandwidth_update acct) l) by (cbn; auto).
  assert (I2 : In (created acct) l) by (cbn; auto).
  assert (I3 : In (last_post acct) l) by (cbn; auto).
  assert (I4 : In (last_vote_time acct) l) by (cbn; auto 6).
  destruct (Hstep _ _ _ _ I1 I2 H1 H2) as [I12 H12].
  destruct (Hstep _ _ _ _ I12 I3 H12 H3) as [I123 H123].
  destruct (Hstep _ _ _ _ I123 I4 H123 H4) as [_ H1234].
  unfold inactive_days, days_since, str_max4. rewrite H1234. reflexivity.
Qed.


End PolicyMore.

(** ** The decisions of a page *)

Section DeltasMore.

Context {RT : Runtime}.
Implicit Types (self : Delegator) (acct : Account) (d : delta).

(** X8.  [get_delegation_deltas] returns a list exactly when
    [vests_to_delegate] returns on every account, and the list is then
    made of the decisions taken, in the order of the accounts, the
    "no action" results left out. *)
Theorem X8_deltas_are_the_decisions self accounts deltas :
  get_delegation_deltas self accounts = Ok deltas
  <-> exists items,
        Forall2 (fun acct item => vests_to_delegate self acct = Ok item) accounts items
        /\ deltas = omap id items.
Proof.
  revert deltas. induction accounts as [|acct rest IH]; intros deltas;
    cbn [get_delegation_deltas].
  - split.
    + intros [= <-]. exists []. split; [constructor|reflexivity].
    + intros (items & HF & ->). inversion HF. reflexivity.
  - split.
    + destruct (vests_to_delegate self acct) as [item|] eqn:Hi; [|discriminate].
      cbn [mbind result_bind].
      destruct (get_delegation_deltas self rest) as [ds|] eqn:Hr; [|discriminate].
      cbn [mbind result_bind]. intros [= <-].
      destruct (proj1 (IH ds) eq_refl) as (items & HF & ->).
      exists (item :: items). split; [constructor; assumption|].
      destruct item; reflexivity.
    + intros (items & HF & ->). inversion HF as [|? item ? items' Hi HF']; subst.
      rewrite Hi. cbn [mbind result_bind].
      rewrite (proj2 (IH (omap id items'))) by (exists items'; auto).
      cbn [mbind result_bind]. destruct item; reflexivity.
Qed.

(** X9.  The decisions of two lists of accounts put end to end are the
    decisions of the first followed by those of the second; the first
    exception met is the one raised. *)
Theorem X9_deltas_of_app self l1 l2 :
  get_delegation_deltas self (l1 ++ l2)%list
  = (d1 ← get_delegation_deltas self l1;
     d2 ← get_delegation_deltas self l2;
     Ok (d1 ++ d2)%list).
Proof.
  induction l1 as [|acct rest IH]; cbn [app get_delegation_deltas].
  - cbn [mbind result_bind]. destruct (get_delegation_deltas self l2); reflexivity.
  - destruct (vests_to_delegate self acct) as [item|]; cbn [mbind result_bind];
      [|reflexivity].
    rewrite IH.
    destruct (get_delegation_deltas self rest) as [d1|]; cbn [mbind result_bind];
      [|reflexivity].
    destruct (get_delegation_deltas self l2) as [d2|]; cbn [mbind result_bind];
      [|reflexivity].
    destruct item; reflexivity.
Qed.

(** X10.  One account on which [vests_to_delegate] raises makes the whole
    page raise that exception, when the accounts before it raise none: no
    decision of the page is returned. *)
Theorem X10_deltas_first_exception self l1 acct l2 e :
  Forall (fun a => is_Ok (vests_to_delegate self a)) l1 ->
  vests_to_delegate self acct = Raise e ->
  get_delegation_deltas self (l1 ++ acct :: l2)%list = Raise e.
Proof.
  intros HF He. induction HF as [|a rest [item Ha] _ IH]; cbn [app get_delegation_deltas].
  - rewrite He. reflexivity.
  - rewrite Ha. cbn [mbind result_bind]. rewrite IH. reflexivity.
Qed.

(** X11.  The names of the decisions of a page are names of its accounts,
    in the same order, and every decision changes the delegation by at
    least the minimum change. *)
Theorem X11_deltas_follow_accounts self accounts deltas :
  get_delegation_deltas self accounts = Ok deltas ->
  sublist (map delta_name deltas) (map name accounts)
  /\ Forall (fun d => MIN_VESTS_DELTA self <= Qabs (delta_vests d)) deltas.
Proof.
  revert deltas. induction accounts as [|acct rest IH]; intros deltas;
    cbn [get_delegation_deltas].
  - intros [= <-]. split; constructor.
  - destruct (vests_to_delegate self acct) as [item|] eqn:Hi; [|discriminate].
    cbn [mbind result_bind].
    destruct (get_delegation_deltas self rest) as [ds|] eqn:Hr; [|discriminate].
    cbn [mbind result_bind]. intros [= <-].
    destruct (IH ds eq_refl) as [Hsub Hall].
    destruct item as [d|]; cbn [map].
    + destruct (vests_to_delegate_Some _ _ _ Hi)
        as (av & old & c & skip & target & _ & _ & _ & _ & _ & _ & _ & _ & _ & Hm).
      assert (Hname : delta_name d = name acct).
      { destruct (vests_to_delegate_Ok _ _ _ Hi)
          as (av' & t' & old' & c' & skip' & E1 & E2 & E3 & E4 & E5).
        rewrite (vests_to_delegate_steps _ _ _ _ _ _ _ E1 E2 E3 E4 E5) in Hi.
        destruct (_ && _); [discriminate|]. destruct (Qlt_bool _ _); [discriminate|].
        injection Hi as <-. reflexivity. }
      rewrite Hname. split; [apply sublist_skip; exact Hsub|].
      constructor; assumption.
    + split; [apply sublist_cons; exact Hsub|exact Hall].
Qed.


(** X13.  [__init__] raises when the chain reports no vesting shares or
    no vesting fund: a division by zero, or an undefined division when
    both are 0. *)
Theorem X13_init_division_by_zero steem limit logger deplorables gp cp fund shares fee :
  get_dynamic_global_properties steem = Ok gp ->
  amount (total_vesting_fund_steem gp) = Ok fund ->
  amount (total_vesting_shares gp) = Ok shares ->
  get_chain_properties steem = Ok cp ->
  amount (account_creation_fee cp) = Ok fee ->
  shares == 0 \/ fund == 0 ->
  Delegator_init steem limit logger deplorables = Raise ZeroDivisionError
  \/ (Delegator_init steem limit logger deplorables = Raise InvalidOperation
      /\ shares == 0 /\ fund == 0).
Proof.
  intros Hgp Hfund Hshares Hcp Hfee Hz. unfold Delegator_init.
  rewrite Hgp. cbn [mbind result_bind]. rewrite Hfund. cbn [mbind result_bind].
  rewrite Hshares. cbn [mbind result_bind]. rewrite Hcp. cbn [mbind result_bind].
  rewrite Hfee. cbn [mbind result_bind]. unfold decimal_div.
  destruct (Qeq_bool shares 0) eqn:Es.
  - destruct (Qeq_bool fund 0) eqn:Ef; cbn [mbind result_bind]; qprop; auto.
  - cbn [mbind result_bind]. qprop. destruct Hz as [Hz | Hz]; [contradiction|].
    replace (Qeq_bool (fund / shares) 0) with true.
    + replace (Qeq_bool TARGET_SP 0) with false by reflexivity.
      cbn [mbind result_bind]. auto.
    + symmetry. apply Qeq_bool_iff. rewrite Hz. unfold Qdiv. ring.
Qed.

(** X14.  From positive amounts of the chain [__init__] returns, with
    positive parameters. *)
Theorem X14_init_positive steem limit logger deplorables gp cp fund shares fee :
  get_dynamic_global_properties steem = Ok gp ->
  amount (total_vesting_fund_steem gp) = Ok fund ->
  amount (total_vesting_shares gp) = Ok shares ->
  get_chain_properties steem = Ok cp ->
  amount (account_creation_fee cp) = Ok fee ->
  0 < fund -> 0 < shares -> 0 < fee ->
  exists self,
    Delegator_init steem limit logger deplorables = Ok self
    /\ 0 < STEEM_PER_VEST self /\ 0 < TARGET_VESTS self
    /\ 0 < MIN_VESTS_DELTA self /\ 0 < MIN_VESTS self.
Proof.
  intros. eapply Delegator_init_positive; eauto.
Qed.

End DeltasMore.

(** ** More on the account pager *)

Lemma dict_get_KeyError d k e : dict_get d k = Raise e -> e = KeyError k.
Proof.
  induction d as [|[k0 v0] d IH]; cbn [dict_get].
  - congruence.
  - destruct (String.eqb k0 k); [discriminate|exact IH].
Qed.

Lemma dict_get_Ok_iff d k : (exists v, dict_get d k = Ok v) <-> In k (dict_keys d).
Proof.
  unfold dict_keys. induction d as [|[k0 v0] d IH]; cbn [dict_get map In fst].
  - split; [intros [v Hv]; discriminate|intros []].
  - destruct (String.eqb k0 k) eqn:E.
    + apply String.eqb_eq in E. split; eauto.
    + apply String.eqb_neq in E. rewrite IH. intuition.
Qed.

Lemma dict_keys_set_NoDup d k v :
  NoDup (dict_keys d) -> NoDup (dict_keys (dict_set d k v)).
Proof.
  unfold dict_keys. induction d as [|[k0 v0] d IH]; cbn [dict_set map fst]; intros Hnd.
  - repeat constructor. intros H; inversion H.
  - destruct (String.eqb k0 k) eqn:E; cbn [map fst]; [exact Hnd|].
    apply String.eqb_neq in E.
    apply NoDup_cons in Hnd as [Hnin Hnd]. apply NoDup_cons. split; [|auto].
    rewrite list_elem_of_In. rewrite list_elem_of_In in Hnin.
    intros Hin. apply (dict_keys_set d k v k0) in Hin. destruct Hin; auto.
Qed.

Lemma delegations_from_NoDup results d0 :
  NoDup (dict_keys d0) ->
  NoDup (dict_keys (fold_left (fun d r => dict_set d (delegatee r)
                                            (delegation_vesting_shares r)) results d0)).
Proof.
  revert d0. induction results as [|r rest IH]; intros d0 Hnd; cbn [fold_left].
  - exact Hnd.
  - apply IH, dict_keys_set_NoDup, Hnd.
Qed.

Lemma delegations_from_other results d0 k :
  (forall r, In r results -> delegatee r <> k) ->
  dict_get (fold_left (fun d r => dict_set d (delegatee r)
                                    (delegation_vesting_shares r)) results d0) k
  = dict_get d0 k.
Proof.
  revert d0. induction results as [|r rest IH]; intros d0 Hne; cbn [fold_left].
  - reflexivity.
  - rewrite IH by (intros r' Hr'; apply Hne; cbn [In]; auto).
    rewrite dict_get_set.
    replace (String.eqb (delegatee r) k) with false; [reflexivity|].
    symmetry. apply String.eqb_neq. apply Hne. cbn [In]. auto.
Qed.

Lemma last_pop_cursor last_idx results r0 rest :
  pop_cursor last_idx results = r0 :: rest ->
  last results = Some (List.last (r0 :: rest) r0).
Proof.
  assert (Hl : forall (l : list delegation) x, l <> [] -> last l = Some (List.last l x)).
  { induction l as [|a [|b l] IH]; intros x Hne; [congruence|reflexivity|].
    change (last (b :: l) = Some (List.last (b :: l) x)). apply IH. discriminate. }
  unfold pop_cursor. destruct results as [|r rest0]; [discriminate|].
  destruct (_ && _).
  - intros ->. change (last (r0 :: rest) = Some (List.last (r0 :: rest) r0)).
    apply Hl. discriminate.
  - intros [= -> ->]. apply Hl. discriminate.
Qed.

Lemma attach_delegations_shape dl accs accounts :
  attach_delegations dl accs = Ok accounts ->
  Forall2 (fun a a' => exists v, dict_get dl (name a) = Ok v
                                 /\ a' = set_from_delegator a v) accs accounts.
Proof.
  revert accounts. induction accs as [|a rest IH]; intros accounts;
    cbn [attach_delegations].
  - intros [= <-]. constructor.
  - destruct (dict_get dl (name a)) as [v|] eqn:Hv; [|discriminate].
    cbn [mbind result_bind].
    destruct (attach_delegations dl rest) as [rest'|]; [|discriminate].
    cbn [mbind result_bind]. intros [= <-]. constructor; eauto.
Qed.

Lemma attach_delegations_unknown dl accs :
  (exists a, In a accs /\ ~ In (name a) (dict_keys dl)) ->
  exists k, attach_delegations dl accs = Raise (KeyError k)
            /\ ~ In k (dict_keys dl).
Proof.
  induction accs as [|a rest IH]; intros (a0 & Hin & Hk); [destruct Hin|].
  cbn [attach_delegations].
  destruct (dict_get dl (name a)) as [v|e] eqn:Hv; cbn [mbind result_bind].
  - destruct Hin as [-> | Hin].
    + exfalso. apply Hk. apply dict_get_Ok_iff. eauto.
    + destruct IH as (k & Hr & Hnk); [eauto|].
      exists k. rewrite Hr. auto.
  - exists (name a). rewrite (dict_get_KeyError _ _ _ Hv). split; [reflexivity|].
    intros Hin'. apply dict_get_Ok_iff in Hin' as [v Hv']. congruence.
Qed.

(** X15.  The cursor the pager returns is the delegatee of the last
    record of the query, and it is [None] only with an empty list of
    accounts. *)
Theorem X15_next_cursor_is_last_delegatee self account last_idx results accounts next :
  get_vesting_delegations (steem self) account last_idx (limit self) = Ok results ->
  outcome (get_delegated_accounts self account last_idx) = Ok (accounts, next) ->
  (next = None /\ accounts = [])
  \/ exists r, last results = Some r /\ next = Some (delegatee r).
Proof.
  intros H Hout. rewrite (get_delegated_accounts_steps _ _ _ _ H) in Hout.
  destruct (pop_cursor last_idx results) as [|r0 rest] eqn:Hpop; cbn [outcome] in Hout.
  - injection Hout as <- <-. auto.
  - right. destruct (get_accounts _ _) as [accs|]; [|discriminate].
    cbn [mbind result_bind] in Hout.
    destruct (attach_delegations _ accs) as [accs'|]; [|discriminate].
    cbn [mbind result_bind] in Hout. injection Hout as _ <-.
    eexists. split; [eapply last_pop_cursor; eauto|reflexivity].
Qed.

(** X16.  The accounts the pager returns are the accounts that
    [get_accounts] sent, in the same order, changed in nothing but the
    delegated amount set on each. *)
Theorem X16_accounts_only_gain_delegated_amount
    self account last_idx results accs accounts next :
  get_vesting_delegations (steem self) account last_idx (limit self) = Ok results ->
  pop_cursor last_idx results <> [] ->
  get_accounts (steem self)
    (dict_keys (delegations_of (pop_cursor last_idx results))) = Ok accs ->
  outcome (get_delegated_accounts self account last_idx) = Ok (accounts, next) ->
  Forall2 (fun a a' => exists v, a' = set_from_delegator a v) accs accounts.
Proof.
  intros H Hne Hacc Hout. rewrite (get_delegated_accounts_steps _ _ _ _ H) in Hout.
  destruct (pop_cursor last_idx results) as [|r0 rest]; [congruence|].
  cbn [outcome] in Hout. rewrite Hacc in Hout. cbn [mbind result_bind] in Hout.
  destruct (attach_delegations _ accs) as [accs'|] eqn:Ha; [|discriminate].
  cbn [mbind result_bind] in Hout. injection Hout as <- _.
  eapply Forall2_impl; [eapply attach_delegations_shape; eauto|].
  intros a a' (v & _ & ->). eauto.
Qed.

(** X17.  The dict of line 75 has each delegatee once as a key, and for a
    delegatee listed several times it keeps the amount of its last
    record. *)
Theorem X17_last_record_wins l1 r l2 :
  (forall r', In r' l2 -> delegatee r' <> delegatee r) ->
  NoDup (dict_keys (delegations_of (l1 ++ r :: l2)%list))
  /\ dict_get (delegations_of (l1 ++ r :: l2)%list) (delegatee r)
     = Ok (delegation_vesting_shares r).
Proof.
  intros Hne. unfold delegations_of. split.
  - apply delegations_from_NoDup. constructor.
  - rewrite fold_left_app. cbn [fold_left].
    rewrite delegations_from_other by exact Hne.
    rewrite dict_get_set, String.eqb_refl. reflexivity.
Qed.

(** X18.  When [get_accounts] sends an account that was not asked for,
    the pager raises [KeyError] with a name that is no delegatee of the
    page. *)
Theorem X18_unknown_account_raises self account last_idx results accs :
  get_vesting_delegations (steem self) account last_idx (limit self) = Ok results ->
  pop_cursor last_idx results <> [] ->
  get_accounts (steem self)
    (dict_keys (delegations_of (pop_cursor last_idx results))) = Ok accs ->
  (exists a, In a accs
             /\ ~ In (name a) (map delegatee (pop_cursor last_idx results))) ->
  exists k, outcome (get_delegated_accounts self account last_idx) = Raise (KeyError k)
            /\ ~ In k (map delegatee (pop_cursor last_idx results)).
Proof.
  intros H Hne Hacc (a & Hin & Hk).
  rewrite (get_delegated_accounts_steps _ _ _ _ H).
  destruct (pop_cursor last_idx results) as [|r0 rest] eqn:Hpop; [congruence|].
  cbn [outcome]. rewrite Hacc. cbn [mbind result_bind].
  destruct (attach_delegations_unknown (delegations_of (r0 :: rest)) accs)
    as (k & Hr & Hnk).
  { exists a. split; [exact Hin|]. rewrite delegations_of_keys. exact Hk. }
  exists k. rewrite Hr. cbn [mbind result_bind]. split; [reflexivity|].
  rewrite <- delegations_of_keys. exact Hnk.
Qed.

(** ** More on the page pipeline *)

Lemma bind_Ok_eq {A B} (m : M A) (k : A -> M B) a :
  outcome m = Ok a ->
  m ≫= k = mkM (trace m ++ trace (k a)) (outcome (k a)).
Proof.
  intros H. unfold mbind, M_bind. rewrite H. reflexivity.
Qed.

Lemma bind_Raise_eq {A B} (m : M A) (k : A -> M B) e :
  outcome m = Raise e -> m ≫= k = mkM (trace m) (Raise e).
Proof.
  intros H. unfold mbind, M_bind. rewrite H. reflexivity.
Qed.

Section PipelineMore.

Context {RT : Runtime}.
Variable TB : TransactionBuilder.

Lemma append_wifs_ok ops added wifs :
  (forall added' wif, appendWif TB ops added' wif = Ok tt) ->
  append_wifs TB ops added wifs = mkM (map AppendWif wifs) (Ok tt).
Proof.
  intros Hok. revert added. induction wifs as [|wif rest IH]; intros added;
    cbn [append_wifs map].
  - reflexivity.
  - rewrite (bind_Ok_eq (call (AppendWif wif) _) _ tt) by (cbn [call outcome]; apply Hok).
    rewrite IH. reflexivity.
Qed.

(** X19.  When [vests_to_delegate] raises on an account of the page,
    [delegate] raises that exception without a call to the transaction
    builder: its calls are those of the pager. *)
Theorem X19_decision_failure_stops_before_builder
    self delegator last_idx expiration dry_run wifs accounts next e :
  outcome (get_delegated_accounts self delegator last_idx) = Ok (accounts, next) ->
  get_delegation_deltas self accounts = Raise e ->
  delegate TB self delegator last_idx expiration dry_run wifs
  = mkM (trace (get_delegated_accounts self delegator last_idx)) (Raise e).
Proof.
  intros Hgda Hdel. unfold delegate.
  rewrite (bind_Ok_eq _ _ _ Hgda). cbv beta iota.
  destruct accounts as [|acct rest]; [discriminate Hdel|].
  rewrite (bind_Raise_eq (pure_step _) _ e) by (cbn [pure_step outcome]; exact Hdel).
  cbn [pure_step trace outcome]. rewrite app_nil_r. reflexivity.
Qed.

(** X20.  When the page has no account, or no account that calls for a
    change, [delegate] returns the empty list with the pager's cursor and
    makes no call to the transaction builder. *)
Theorem X20_nothing_to_do_no_transaction
    self delegator last_idx expiration dry_run wifs accounts next :
  outcome (get_delegated_accounts self delegator last_idx) = Ok (accounts, next) ->
  get_delegation_deltas self accounts = Ok [] ->
  delegate TB self delegator last_idx expiration dry_run wifs
  = mkM (trace (get_delegated_accounts self delegator last_idx)) (Ok ([], next)).
Proof.
  intros Hgda Hdel. unfold delegate.
  rewrite (bind_Ok_eq _ _ _ Hgda). cbv beta iota.
  destruct accounts as [|acct rest].
  - cbn [mret M_ret trace outcome]. rewrite app_nil_r. reflexivity.
  - rewrite (bind_Ok_eq (pure_step _) _ []) by (cbn [pure_step outcome]; exact Hdel).
    cbn [pure_step mret M_ret trace outcome app]. rewrite app_nil_r. reflexivity.
Qed.

(** X21.  When every collaborator accepts, [delegate] makes its calls in
    this order: the pager's queries, the new builder, one [appendOps] with
    one operation per decision in the order of the decisions (the
    decision's [new_vests] for its delegatee), one [appendWif] per key in
    the order of the keys, [sign] if there is a key and, unless the run is
    dry, [broadcast], the log entry and a sleep of 3 n / 100 seconds for n
    decisions.  It returns the decisions and the pager's cursor. *)
Theorem X21_calls_of_a_successful_run
    self delegator last_idx expiration dry_run wifs accounts next d ds res :
  outcome (get_delegated_accounts self delegator last_idx) = Ok (accounts, next) ->
  get_delegation_deltas self accounts = Ok (d :: ds) ->
  appendOps TB (map (fun x => DelegateVestingShares delegator (new_vests x) (delta_name x))
                    (d :: ds)) = Ok tt ->
  (forall added wif,
     appendWif TB (map (fun x => DelegateVestingShares delegator (new_vests x)
                                                       (delta_name x)) (d :: ds))
               added wif = Ok tt) ->
  (wifs <> [] ->
   sign TB (map (fun x => DelegateVestingShares delegator (new_vests x) (delta_name x))
                (d :: ds)) wifs = Ok tt) ->
  (dry_run = false ->
   broadcast TB (map (fun x => DelegateVestingShares delegator (new_vests x)
                                                     (delta_name x))
                     (d :: ds)) wifs = Ok res
   /\ logger self res = Ok tt) ->
  delegate TB self delegator last_idx expiration dry_run wifs
  = mkM (trace (get_delegated_accounts self delegator last_idx)
         ++ [NewTransactionBuilder expiration;
             AppendOps (map (fun x => DelegateVestingShares delegator (new_vests x)
                                                            (delta_name x)) (d :: ds))]
         ++ map AppendWif wifs
         ++ (match wifs with [] => [] | _ :: _ => [Sign] end)
         ++ (if dry_run then []
             else [Broadcast; LogInfo res;
                   Sleep (3 * inject_Z (Z.of_nat (length (d :: ds))) / 100)]))
        (Ok (d :: ds, next)).
Proof.
  intros Hgda Hdel Hops Hwif Hsign Hbc. unfold delegate.
  rewrite (bind_Ok_eq _ _ _ Hgda). cbv beta iota.
  destruct accounts as [|acct rest]; [discriminate Hdel|].
  rewrite (bind_Ok_eq (pure_step _) _ (d :: ds)) by (cbn [pure_step outcome]; exact Hdel).
  cbv beta iota zeta.
  set (ops := map _ (d :: ds)) in *.
  rewrite (append_wifs_ok _ _ _ Hwif).
  assert (Hb : dry_run = false ->
               (result ← call Broadcast (broadcast TB ops wifs);
                _ ← call (LogInfo result) (logger self result);
                call (Sleep (3 * inject_Z (Z.of_nat (length (d :: ds))) / 100)) (Ok tt))
               = mkM [Broadcast; LogInfo res;
                      Sleep (3 * inject_Z (Z.of_nat (length (d :: ds))) / 100)] (Ok tt)).
  { intros Hdry. destruct (Hbc Hdry) as [Hb Hlog].
    rewrite (bind_Ok_eq (call Broadcast _) _ res) by exact Hb.
    rewrite (bind_Ok_eq (call (LogInfo res) _) _ tt) by exact Hlog.
    reflexivity. }
  assert (Hs : forall wif rest', wifs = wif :: rest' -> sign TB ops wifs = Ok tt).
  { intros wif rest' E. apply Hsign. rewrite E. discriminate. }
  destruct wifs as [|wif wifs']; destruct dry_run; cbn [negb];
    rewrite ?(Hb eq_refl); try pose proof (Hs _ _ eq_refl) as Hs';
    repeat (erewrite bind_Ok_eq
              by (cbn [call pure_step outcome mret M_ret];
                  first [eassumption | reflexivity]));
    cbn [call pure_step mret M_ret trace outcome map];
    f_equal; rewrite ?app_nil_r, <- ?app_assoc; reflexivity.
Qed.

(** X22.  [delegate] calls [broadcast] only in a run that is not dry, on
    a page with at least one decision, after [appendOps] has accepted the
    operations and, when keys are passed, after [sign] has succeeded. *)
Theorem X22_broadcast_only_after_signing
    self delegator last_idx expiration dry_run wifs :
  In Broadcast (trace (delegate TB self delegator last_idx expiration dry_run wifs)) ->
  dry_run = false
  /\ exists accounts next d ds,
       outcome (get_delegated_accounts self delegator last_idx) = Ok (accounts, next)
       /\ get_delegation_deltas self accounts = Ok (d :: ds)
       /\ appendOps TB (map (fun x => DelegateVestingShares delegator (new_vests x)
                                                            (delta_name x)) (d :: ds))
          = Ok tt
       /\ (wifs <> [] ->
           sign TB (map (fun x => DelegateVestingShares delegator (new_vests x)
                                                        (delta_name x)) (d :: ds)) wifs
           = Ok tt).
Proof.
  unfold delegate. intros H.
  apply In_trace_bind in H. destruct H as [H | ([accounts next] & Hgda & H)].
  { apply get_delegated_accounts_trace in H. destruct H as [H | [names H]]; discriminate. }
  destruct accounts as [|acct accounts]; [destruct H|].
  apply In_trace_bind in H. destruct H as [[] | (deltas & Hdel & H)].
  destruct deltas as [|d ds]; [destruct H|].
  cbv beta iota zeta in H. set (ops := map _ (d :: ds)) in *.
  apply In_trace_bind in H. destruct H as [[H | []] | (_ & _ & H)]; [discriminate|].
  apply In_trace_bind in H. destruct H as [[H | []] | ([] & Hops & H)]; [discriminate|].
  apply In_trace_bind in H. destruct H as [H | (_ & _ & H)].
  { apply append_wifs_trace in H. destruct H as [wif H]. discriminate. }
  apply In_trace_bind in H. destruct H as [H | ([] & Hsign & H)].
  { destruct wifs as [|wif rest]; [destruct H|]. destruct H as [H | []]. discriminate. }
  apply In_trace_bind in H. destruct H as [H | (_ & _ & [])].
  destruct dry_run; [destruct H|].
  split; [reflexivity|]. exists (acct :: accounts), next, d, ds.
  repeat split; auto.
  intros Hne. destruct wifs as [|wif rest]; [congruence|exact Hsign].
Qed.

(** X23.  When [broadcast] raises, [delegate] raises that exception: the
    call to [broadcast] is its last call, nothing is logged, there is no
    sleep and no decision is returned. *)
Theorem X23_broadcast_failure_propagates
    self delegator last_idx expiration wifs accounts next d ds e :
  outcome (get_delegated_accounts self delegator last_idx) = Ok (accounts, next) ->
  get_delegation_deltas self accounts = Ok (d :: ds) ->
  appendOps TB (map (fun x => DelegateVestingShares delegator (new_vests x) (delta_name x))
                    (d :: ds)) = Ok tt ->
  (forall added wif,
     appendWif TB (map (fun x => DelegateVestingShares delegator (new_vests x)
                                                       (delta_name x)) (d :: ds))
               added wif = Ok tt) ->
  (wifs <> [] ->
   sign TB (map (fun x => DelegateVestingShares delegator (new_vests x) (delta_name x))
                (d :: ds)) wifs = Ok tt) ->
  broadcast TB (map (fun x => DelegateVestingShares delegator (new_vests x) (delta_name x))
                    (d :: ds)) wifs = Raise e ->
  delegate TB self delegator last_idx expiration false wifs
  = mkM (trace (get_delegated_accounts self delegator last_idx)
         ++ [NewTransactionBuilder expiration;
             AppendOps (map (fun x => DelegateVestingShares delegator (new_vests x)
                                                            (delta_name x)) (d :: ds))]
         ++ map AppendWif wifs
         ++ (match wifs with [] => [] | _ :: _ => [Sign] end)
         ++ [Broadcast])
        (Raise e).
Proof.
  intros Hgda Hdel Hops Hwif Hsign Hbc. unfold delegate.
  rewrite (bind_Ok_eq _ _ _ Hgda). cbv beta iota.
  destruct accounts as [|acct rest]; [discriminate Hdel|].
  rewrite (bind_Ok_eq (pure_step _) _ (d :: ds)) by (cbn [pure_step outcome]; exact Hdel).
  cbv beta iota zeta.
  set (ops := map _ (d :: ds)) in *.
  rewrite (append_wifs_ok _ _ _ Hwif). cbn [negb].
  rewrite (bind_Raise_eq (call Broadcast _) _ e) by exact Hbc.
  assert (Hs : forall wif rest', wifs = wif :: rest' -> sign TB ops wifs = Ok tt).
  { intros wif rest' E. apply Hsign. rewrite E. discriminate. }
  rewrite (bind_Raise_eq (mkM _ (Raise e)) _ e) by reflexivity.
  destruct wifs as [|wif wifs']; try pose proof (Hs _ _ eq_refl) as Hs';
    repeat (erewrite bind_Ok_eq
              by (cbn [call pure_step outcome mret M_ret];
                  first [eassumption | reflexivity]));
    cbn [call pure_step mret M_ret trace outcome map];
    f_equal; rewrite ?app_nil_r, <- ?app_assoc; reflexivity.
Qed.

(** X24.  What [delegate] returns, dry run or not, is the list of the
    decisions on the pager's accounts and the pager's cursor. *)
Theorem X24_delegate_returns_decisions_and_cursor
    self delegator last_idx expiration dry_run wifs deltas next :
  outcome (delegate TB self delegator last_idx expiration dry_run wifs)
  = Ok (deltas, next) ->
  exists accounts,
    outcome (get_delegated_accounts self delegator last_idx) = Ok (accounts, next)
    /\ get_delegation_deltas self accounts = Ok deltas.
Proof.
  unfold delegate. rewrite outcome_bind.
  destruct (outcome (get_delegated_accounts self delegator last_idx))
    as [[accounts next']|]; [|intros Hr; discriminate Hr].
  destruct accounts as [|acct accounts]; cbv beta iota.
  { cbn. intros [= <- <-]. exists []. auto. }
  rewrite outcome_bind. cbn [pure_step outcome].
  destruct (get_delegation_deltas self (acct :: accounts)) as [ds|] eqn:Hdel;
    [|intros Hr; discriminate Hr].
  destruct ds as [|d ds]; cbv beta iota.
  { cbn. intros [= <- <-]. eauto. }
  repeat (rewrite ?outcome_bind;
          match goal with
          | |- context [outcome (call ?ev ?x)] => destruct (outcome (call ev x))
          | |- context [outcome (append_wifs ?a ?b ?c ?e)] =>
              destruct (outcome (append_wifs a b c e))
          | |- context [outcome (match ?w with [] => _ | _ :: _ => _ end)] =>
              destruct w
          | |- context [outcome (if negb ?b then _ else _)] => destruct b; cbn [negb]
          end; try (intros Hr; discriminate Hr)).
  all: cbn; intros [= <- <-]; eauto.
Qed.

End PipelineMore.

(** ** The model on the sample data *)

#[local] Existing Instance Sample.rt.

Ltac by_compute :=
  vm_compute;
  first [ reflexivity | discriminate
        | let H := fresh in intro H; discriminate H ].

(** The parameters of the sample are the ones [__init__] derives from the
    sample chain. *)
Example sample_init :
  exists self, Delegator_init Sample.chain 100 (fun _ => Ok tt) (Some {["spammer"]}) = Ok self
               /\ TARGET_VESTS self == TARGET_VESTS Sample.self
               /\ MIN_VESTS_DELTA self == MIN_VESTS_DELTA Sample.self
               /\ MIN_VESTS self == MIN_VESTS Sample.self.
Proof.
  eexists. split; [vm_compute; reflexivity|]. repeat split; by_compute.
Qed.

(** The three end-to-end examples of the specification. *)
Example sample_alice :
  vests_to_delegate Sample.self Sample.alice_0 = Ok (Some Sample.alice_delta).
Proof. by_compute. Qed.

Example sample_bob :
  vests_to_delegate Sample.self Sample.bob_150 = Ok (Some Sample.bob_delta).
Proof. by_compute. Qed.

Example sample_carol :
  inactive_days Sample.carol_20 = Ok 120%Z
  /\ candidate_vests Sample.self Sample.carol_20 50 = Ok (850 # 3)
  /\ skip_increase Sample.carol_20 50 = Ok true
  /\ vests_to_delegate Sample.self Sample.carol_20 = Ok None.
Proof. repeat split; by_compute. Qed.

(** A rate of exactly 0.000001 is above the float literal of line 97. *)
Example sample_rate_threshold :
  amount "0.000001 VESTS" = Ok (1 # 1000000)
  /\ Qlt_bool float_0_000001 (1 # 1000000) = true.
Proof. split; by_compute. Qed.

(** ** The claims on the sample data *)

(** C1 fails as stated: the stake of [whale] is above the target and the
    account is active, and the policy takes a decision. *)
Lemma C1_counterexample :
  ~ (forall (RT : Runtime) self acct av days,
       amount (vesting_shares acct) = Ok av ->
       TARGET_VESTS self <= av ->
       inactive_days acct = Ok days -> (days <= 90)%Z ->
       vests_to_delegate self acct = Ok None).
Proof.
  intros H.
  specialize (H Sample.rt Sample.self Sample.whale_150 5000 11%Z).
  assert (Hd : vests_to_delegate Sample.self Sample.whale_150
               = Ok (Some Sample.whale_delta)) by by_compute.
  rewrite Hd in H.
  assert (Hn : Ok (Some Sample.whale_delta) = Ok None -> False) by discriminate.
  apply Hn, H; by_compute.
Qed.

Lemma C1_witness :
  candidate_vests Sample.self Sample.whale_150 5000 = Ok 0
  /\ exists d, vests_to_delegate Sample.self Sample.whale_150 = Ok (Some d)
               /\ delta_vests d == - 150
               /\ new_vests d = format_6f 0 ++ " VESTS".
Proof.
  apply (C1_self_sufficient_is_reset
           Sample.self Sample.whale_150 5000 "150.000000 VESTS" 150 false);
    by_compute.
Defined.

Lemma C2_witness :
  vests_to_delegate Sample.self Sample.bob_150 = Ok (Some Sample.bob_delta)
  /\ MIN_VESTS_DELTA Sample.self <= Qabs (delta_vests Sample.bob_delta)
  /\ exists target old,
       amount (old_vests Sample.bob_delta) = Ok old
       /\ delta_vests Sample.bob_delta = target - old
       /\ new_vests Sample.bob_delta = format_6f target ++ " VESTS".
Proof.
  split; [by_compute|].
  apply (C2_min_change_filter Sample.self Sample.bob_150 Sample.bob_delta).
  by_compute.
Defined.

(** C3 fails as stated: a dry run that is given a signing key calls
    [sign]. *)
Lemma C3_counterexample :
  In Sign (trace (delegate Sample.builder Sample.self "redeemer" (Some "") 60 true
                           ["5JsigningKey"])).
Proof.
  vm_compute. do 5 right. left. reflexivity.
Qed.

(** C4 fails as stated: once the delegation of [whale] is reset to 0, the
    next run raises it to the minimum delegation. *)
Lemma C4_counterexample :
  ~ (forall (RT : Runtime) self acct d,
       vests_to_delegate self acct = Ok (Some d) ->
       vests_to_delegate self (set_from_delegator acct (new_vests d)) = Ok None).
Proof.
  intros H.
  specialize (H Sample.rt Sample.self Sample.whale_150 Sample.whale_delta).
  assert (H2 : vests_to_delegate Sample.self
                 (set_from_delegator Sample.whale_150 (new_vests Sample.whale_delta))
               = Ok (Some (Sample.mk_delta Sample.whale 10 "10.000000 VESTS"
                                           "0.000000 VESTS"))) by by_compute.
  rewrite H2 in H.
  assert (Hn : forall x : delta, Ok (Some x) = Ok None -> False) by discriminate.
  eapply Hn, H. by_compute.
Qed.

Lemma C4_witness :
  vests_to_delegate Sample.self Sample.alice_0 = Ok (Some Sample.alice_delta)
  /\ vests_to_delegate Sample.self
       (set_from_delegator Sample.alice_0 (new_vests Sample.alice_delta)) = Ok None.
Proof.
  split; [by_compute|].
  apply (C4_idempotent_on_positive_candidate
           Sample.self Sample.alice_0 Sample.alice_delta 200 800 0 800); by_compute.
Defined.

Lemma C5_witness :
  "spammer" ∈ deplorables Sample.self
  /\ vests_to_delegate Sample.self Sample.spammer_150 = Ok (Some Sample.spammer_delta)
  /\ (forall av, candidate_vests Sample.self Sample.spammer_150 av = Ok 0)
  /\ delta_vests Sample.spammer_delta < 0
  /\ delta_vests Sample.spammer_delta == - 150.
Proof.
  assert (Hin : "spammer" ∈ deplorables Sample.self).
  { refine (bool_decide_unpack _ _). vm_compute. exact I. }
  split; [exact Hin|].
  split; [by_compute|].
  apply (C5_excluded_driven_to_zero
           Sample.self Sample.spammer_150 Sample.spammer_delta 150);
    first [ exact Hin | by_compute ].
Defined.


(** C7.  There is an account that shows withdrawal activity, whose
    candidate is 0 and whose delegated amount lies strictly between 0 and
    the minimum change, for which the policy emits a decision with a
    positive delta: the guard of line 103 compares the delegated amount
    with the candidate, before the raise of lines 112-116. *)
Theorem C7_raise_escapes_guard :
  exists (RT : Runtime) (self : Delegator) (acct : Account)
         (av old : Q) (old_text : string) (d : delta),
    amount (vesting_shares acct) = Ok av
    /\ skip_increase acct av = Ok true
    /\ candidate_vests self acct av = Ok 0
    /\ vesting_shares_from_delegator acct = Some old_text
    /\ amount old_text = Ok old
    /\ 0 < old /\ old < MIN_VESTS_DELTA self
    /\ Qlt_bool old 0 && true = false
    /\ vests_to_delegate self acct = Ok (Some d)
    /\ 0 < delta_vests d.
Proof.
  exists Sample.rt, Sample.self, Sample.spammer_half, 300, (1 # 2),
         "0.500000 VESTS", Sample.spammer_half_delta.
  repeat split; by_compute.
Qed.

Lemma C8_witness :
  get_vesting_delegations (steem Sample.self) "redeemer" (Some "carol") (limit Sample.self)
  = Ok [Sample.carol_record; Sample.whale_record]
  /\ trace (get_delegated_accounts Sample.self "redeemer" (Some "carol"))
     = [GetVestingDelegations "redeemer" (Some "carol") 100; GetAccounts ["whale"]]
  /\ outcome (get_delegated_accounts Sample.self "redeemer" (Some "carol"))
     = Ok ([Sample.whale_150], Some "whale")
  /\ exists kept,
    (forall c r rest, Some "carol" = Some c -> c <> "" ->
                      [Sample.carol_record; Sample.whale_record] = r :: rest ->
                      delegatee r = c -> kept = rest)
    /\ (Some "carol" = None \/ Some "carol" = Some ""
        \/ [Sample.carol_record; Sample.whale_record] = []
        \/ (exists r rest, [Sample.carol_record; Sample.whale_record] = r :: rest
                           /\ Some "carol" <> Some (delegatee r)) ->
        kept = [Sample.carol_record; Sample.whale_record])
    /\ (kept = [] ->
        trace (get_delegated_accounts Sample.self "redeemer" (Some "carol"))
        = [GetVestingDelegations "redeemer" (Some "carol") (limit Sample.self)])
    /\ (kept <> [] ->
        exists names,
          trace (get_delegated_accounts Sample.self "redeemer" (Some "carol"))
          = [GetVestingDelegations "redeemer" (Some "carol") (limit Sample.self);
             GetAccounts names]
          /\ forall n, In n names <-> In n (map delegatee kept))
    /\ (forall accounts next acct,
          outcome (get_delegated_accounts Sample.self "redeemer" (Some "carol"))
          = Ok (accounts, next) ->
          In acct accounts ->
          exists r, In r kept /\ delegatee r = name acct
                    /\ vesting_shares_from_delegator acct
                       = Some (delegation_vesting_shares r)).
Proof.
  split; [by_compute|]. split; [by_compute|]. split; [by_compute|].
  apply (C8_cursor_dedup Sample.self "redeemer" (Some "carol")
                         [Sample.carol_record; Sample.whale_record]).
  by_compute.
Defined.

Lemma C9_witness :
  get_vesting_delegations (steem Sample.self) "redeemer" (Some "whale") (limit Sample.self)
  = Ok [Sample.whale_record]
  /\ get_delegated_accounts Sample.self "redeemer" (Some "whale")
     = mkM [GetVestingDelegations "redeemer" (Some "whale") (limit Sample.self)]
           (Ok ([], None)).
Proof.
  split; [by_compute|].
  apply (C9_terminal_cursor Sample.self "redeemer" (Some "whale") [Sample.whale_record]);
    by_compute.
Defined.


(** ** The further properties on the sample data *)


Lemma X2_witness :
  exists d, vests_to_delegate Sample.self Sample.whale_150 = Ok (Some d)
            /\ (MIN_VESTS_DELTA Sample.self <= 150 -> delta_vests d == - 150)
            /\ (150 < MIN_VESTS_DELTA Sample.self ->
                MIN_VESTS_DELTA Sample.self <= delta_vests d
                /\ delta_vests d
                   == py_max (MIN_VESTS Sample.self)
                             (150 + MIN_VESTS_DELTA Sample.self) - 150).
Proof.
  apply (X2_zero_candidate_always_decides
           Sample.self Sample.whale_150 5000 "150.000000 VESTS" 150 false);
    by_compute.
Defined.

Lemma X3_witness :
  skip_increase Sample.spammer_150 300 = Ok true
  /\ delta_vests Sample.spammer_delta <= 0.
Proof.
  split; [by_compute|].
  apply (X3_guard_holds_above_minimum
           Sample.self Sample.spammer_150 Sample.spammer_delta 300 150);
    by_compute.
Defined.



Lemma X6_witness :
  inactive_days Sample.alice
  = Ok ((today - Z.max (Z.max (Z.max 1526803200000000 1488326400000000)
                              1514138400000000) 0) / DAY_US)%Z.
Proof.
  apply (X6_inactive_days_latest Sample.alice);
    [by_compute | by_compute | by_compute | by_compute |].
  intros x y tx ty Hx Hy Ex Ey Hlt. cbn [In Sample.alice Sample.mk_account
    last_bandwidth_update created last_post last_vote_time] in Hx, Hy.
  destruct Hx as [<- | [<- | [<- | [<- | []]]]];
    destruct Hy as [<- | [<- | [<- | [<- | []]]]];
    vm_compute in Ex, Ey, Hlt; try discriminate Hlt;
    injection Ex as <-; injection Ey as <-; by_compute.
Defined.


Lemma X10_witness :
  get_delegation_deltas Sample.self
    ([Sample.bob_150] ++ Sample.alice :: [Sample.whale_150])%list
  = Raise (KeyError "vesting_shares_from_delegator").
Proof.
  apply (X10_deltas_first_exception Sample.self [Sample.bob_150] Sample.alice
                                    [Sample.whale_150]).
  - repeat constructor. eexists. by_compute.
  - by_compute.
Defined.

Lemma X11_witness :
  sublist (map delta_name [Sample.alice_delta; Sample.bob_delta])
          (map name [Sample.alice_0; Sample.carol_20; Sample.bob_150])
  /\ Forall (fun d => MIN_VESTS_DELTA Sample.self <= Qabs (delta_vests d))
            [Sample.alice_delta; Sample.bob_delta].
Proof.
  apply (X11_deltas_follow_accounts Sample.self
           [Sample.alice_0; Sample.carol_20; Sample.bob_150]).
  by_compute.
Defined.


Lemma X13_witness :
  Delegator_init Sample.empty_chain 100 (fun _ => Ok tt) None = Raise ZeroDivisionError
  \/ (Delegator_init Sample.empty_chain 100 (fun _ => Ok tt) None = Raise InvalidOperation
      /\ 0 == 0 /\ 15 == 0).
Proof.
  apply (X13_init_division_by_zero Sample.empty_chain 100 (fun _ => Ok tt) None
           {| total_vesting_fund_steem := "15.000 STEEM";
              total_vesting_shares := "0.000000 VESTS" |}
           {| account_creation_fee := "0.015 STEEM" |} 15 0 (3 # 200));
    try by_compute.
  left. reflexivity.
Defined.

Lemma X14_witness :
  exists self,
    Delegator_init Sample.chain 100 (fun _ => Ok tt) None = Ok self
    /\ 0 < STEEM_PER_VEST self /\ 0 < TARGET_VESTS self
    /\ 0 < MIN_VESTS_DELTA self /\ 0 < MIN_VESTS self.
Proof.
  apply (X14_init_positive Sample.chain 100 (fun _ => Ok tt) None
           {| total_vesting_fund_steem := "15.000 STEEM";
              total_vesting_shares := "1000.000000 VESTS" |}
           {| account_creation_fee := "0.015 STEEM" |} 15 1000 (3 # 200));
    by_compute.
Defined.

Lemma X15_witness :
  (Some "whale" = None /\ [Sample.whale_150] = [])
  \/ exists r, last [Sample.carol_record; Sample.whale_record] = Some r
               /\ Some "whale" = Some (delegatee r).
Proof.
  apply (X15_next_cursor_is_last_delegatee
           Sample.self "redeemer" (Some "carol")
           [Sample.carol_record; Sample.whale_record] [Sample.whale_150] (Some "whale"));
    by_compute.
Defined.

Lemma X16_witness :
  Forall2 (fun a a' => exists v, a' = set_from_delegator a v)
          [Sample.whale] [Sample.whale_150].
Proof.
  apply (X16_accounts_only_gain_delegated_amount
           Sample.self "redeemer" (Some "carol")
           [Sample.carol_record; Sample.whale_record]
           [Sample.whale] [Sample.whale_150] (Some "whale"));
    by_compute.
Defined.

Lemma X17_witness :
  NoDup (dict_keys (delegations_of
           ([ {| delegatee := "whale"; delegation_vesting_shares := "1.000000 VESTS" |} ]
            ++ Sample.whale_record :: [Sample.carol_record])%list))
  /\ dict_get (delegations_of
           ([ {| delegatee := "whale"; delegation_vesting_shares := "1.000000 VESTS" |} ]
            ++ Sample.whale_record :: [Sample.carol_record])%list) "whale"
     = Ok "150.000000 VESTS".
Proof.
  apply (X17_last_record_wins
           [ {| delegatee := "whale"; delegation_vesting_shares := "1.000000 VESTS" |} ]
           Sample.whale_record [Sample.carol_record]).
  intros r' [<- | []]. by_compute.
Defined.

Lemma X18_witness :
  exists k,
    outcome (get_delegated_accounts
               (Sample.self_on (Sample.chain_with [Sample.carol_record] [Sample.dave]))
               "redeemer" None) = Raise (KeyError k)
    /\ ~ In k (map delegatee (pop_cursor None [Sample.carol_record])).
Proof.
  apply (X18_unknown_account_raises
           (Sample.self_on (Sample.chain_with [Sample.carol_record] [Sample.dave]))
           "redeemer" None [Sample.carol_record] [Sample.dave]); try by_compute.
  exists Sample.dave. split; [left; reflexivity|].
  intros [H | []]. discriminate H.
Defined.

Lemma X19_witness :
  delegate Sample.builder
    (Sample.self_on (Sample.chain_with [Sample.whale_record] [Sample.mallory]))
    "redeemer" None 60 false ["5JsigningKey"]
  = mkM (trace (get_delegated_accounts
                  (Sample.self_on (Sample.chain_with [Sample.whale_record]
                                                     [Sample.mallory]))
                  "redeemer" None))
        (Raise InvalidOperation).
Proof.
  apply (X19_decision_failure_stops_before_builder
           Sample.builder
           (Sample.self_on (Sample.chain_with [Sample.whale_record] [Sample.mallory]))
           "redeemer" None 60 false ["5JsigningKey"]
           [set_from_delegator Sample.mallory "150.000000 VESTS"] (Some "whale"));
    by_compute.
Defined.

Lemma X20_witness :
  delegate Sample.builder
    (Sample.self_on (Sample.chain_with [Sample.carol_record] [Sample.carol]))
    "redeemer" None 60 false ["5JsigningKey"]
  = mkM (trace (get_delegated_accounts
                  (Sample.self_on (Sample.chain_with [Sample.carol_record]
                                                     [Sample.carol]))
                  "redeemer" None))
        (Ok ([], Some "carol")).
Proof.
  apply (X20_nothing_to_do_no_transaction
           Sample.builder
           (Sample.self_on (Sample.chain_with [Sample.carol_record] [Sample.carol]))
           "redeemer" None 60 false ["5JsigningKey"] [Sample.carol_20] (Some "carol"));
    by_compute.
Defined.

Lemma X21_witness :
  delegate Sample.builder Sample.self "redeemer" (Some "") 60 false ["k1"; "k2"]
  = mkM ([GetVestingDelegations "redeemer" (Some "") 100;
          GetAccounts ["alice"; "bob"; "carol"; "whale"];
          NewTransactionBuilder 60; AppendOps Sample.page_ops;
          AppendWif "k1"; AppendWif "k2"; Sign;
          Broadcast; LogInfo "ok"; Sleep (3 * 3 / 100)])
        (Ok ([Sample.alice_delta; Sample.bob_delta; Sample.whale_delta], Some "whale")).
Proof.
  rewrite (X21_calls_of_a_successful_run
             Sample.builder Sample.self "redeemer" (Some "") 60 false ["k1"; "k2"]
             [Sample.alice_0; Sample.bob_150; Sample.carol_20; Sample.whale_150]
             (Some "whale") Sample.alice_delta [Sample.bob_delta; Sample.whale_delta]
             "ok");
    first [ by_compute | intros _; split; by_compute ].
Defined.

Lemma X22_witness :
  In Broadcast (trace (delegate Sample.builder Sample.self "redeemer" (Some "") 60 false
                                ["k1"]))
  /\ false = false
  /\ exists accounts next d ds,
       outcome (get_delegated_accounts Sample.self "redeemer" (Some ""))
       = Ok (accounts, next)
       /\ get_delegation_deltas Sample.self accounts = Ok (d :: ds)
       /\ appendOps Sample.builder
            (map (fun x => DelegateVestingShares "redeemer" (new_vests x) (delta_name x))
                 (d :: ds))
          = Ok tt
       /\ (["k1"] <> [] ->
           sign Sample.builder
             (map (fun x => DelegateVestingShares "redeemer" (new_vests x) (delta_name x))
                  (d :: ds)) ["k1"]
           = Ok tt).
Proof.
  assert (H : In Broadcast
                 (trace (delegate Sample.builder Sample.self "redeemer" (Some "") 60 false
                                  ["k1"]))).
  { vm_compute. do 6 right. left. reflexivity. }
  split; [exact H|].
  apply (X22_broadcast_only_after_signing
           Sample.builder Sample.self "redeemer" (Some "") 60 false ["k1"] H).
Defined.

Lemma X23_witness :
  delegate Sample.rejecting_builder Sample.self "redeemer" (Some "") 60 false ["k1"]
  = mkM ([GetVestingDelegations "redeemer" (Some "") 100;
          GetAccounts ["alice"; "bob"; "carol"; "whale"];
          NewTransactionBuilder 60; AppendOps Sample.page_ops;
          AppendWif "k1"; Sign; Broadcast])
        (Raise (ExternalError "rejected")).
Proof.
  rewrite (X23_broadcast_failure_propagates
             Sample.rejecting_builder Sample.self "redeemer" (Some "") 60 ["k1"]
             [Sample.alice_0; Sample.bob_150; Sample.carol_20; Sample.whale_150]
             (Some "whale") Sample.alice_delta [Sample.bob_delta; Sample.whale_delta]
             (ExternalError "rejected"));
    first [ by_compute | intros _; by_compute ].
Defined.

Lemma X24_witness :
  exists accounts,
    outcome (get_delegated_accounts Sample.self "redeemer" (Some ""))
    = Ok (accounts, Some "whale")
    /\ get_delegation_deltas Sample.self accounts
       = Ok [Sample.alice_delta; Sample.bob_delta; Sample.whale_delta].
Proof.
  apply (X24_delegate_returns_decisions_and_cursor
           Sample.builder Sample.self "redeemer" (Some "") 60 true ["k1"]).
  by_compute.
Defined.
